(** * PV plant performance analysis: a model of [sistemwarning.py]

    The program reads three kinds of spreadsheets (irradiance sensor "EM",
    revenue meter "RM", inverter output), joins them on the column
    ['Start Time'], derives the Performance Ratio (PR) of every joined
    interval, labels it, and summarises the efficiency of every inverter.

    The numeric columns are pandas [float64] columns, so the numbers of this
    development are IEEE 754 binary64 values, computed with the executable
    specification of the Standard Library ([SpecFloat], precision 53,
    maximal exponent 1024, rounding to nearest even).  Integer columns and
    integer literals take part in float arithmetic through their exact
    conversion. *)

From Stdlib Require Import ZArith List Bool String Lia PeanoNat.
From Stdlib Require Import Floats.SpecFloat.
Import ListNotations.

Set Implicit Arguments.

(** ** Binary64 numbers *)

Definition float : Type := spec_float.

Module F64.

Definition prec : Z := 53.
Definition emax : Z := 1024.

Definition mul : float -> float -> float := SFmul prec emax.
Definition div : float -> float -> float := SFdiv prec emax.
Definition add : float -> float -> float := SFadd prec emax.

(** Python's [x < y], [x <= y], [x == y], [x >= y], [x > y] on floats:
    every comparison with a NaN is [False]. *)
Definition ltb (x y : float) : bool := SFltb x y.
Definition leb (x y : float) : bool := SFleb x y.
Definition eqb (x y : float) : bool := SFeqb x y.
Definition geb (x y : float) : bool := SFleb y x.
Definition gtb (x y : float) : bool := SFltb y x.

(** The float of an integer (exact below 2^53). *)
Definition of_Z (n : Z) : float := binary_normalize prec emax n 0 false.

(** The float denoted by the decimal literal [n/d], e.g. [dec 75 100] for
    [0.75]: the quotient of two exact integers, rounded once. *)
Definition dec (n d : Z) : float := div (of_Z n) (of_Z d).

Definition zero : float := S754_zero false.
Definition nan : float := S754_nan.
Definition pinf : float := S754_infinity false.
Definition ninf : float := S754_infinity true.

Definition is_nan (x : float) : bool :=
  match x with S754_nan => true | _ => false end.

Definition is_finite (x : float) : bool :=
  match x with
  | S754_zero _ | S754_finite _ _ _ => true
  | _ => false
  end.

(** Structural equality of representations. *)
Definition same (x y : float) : bool :=
  match x, y with
  | S754_zero a, S754_zero b => Bool.eqb a b
  | S754_infinity a, S754_infinity b => Bool.eqb a b
  | S754_nan, S754_nan => true
  | S754_finite a m e, S754_finite b n f =>
      Bool.eqb a b && Pos.eqb m n && Z.eqb e f
  | _, _ => false
  end.

End F64.

(** ** Constants of the module *)

(** [PV_CAPACITY = 2.06] (MWp), [PR_THRESHOLD = 0.75],
    [INVERTER_EFF_THRESHOLD = 0.90]. *)
Definition PV_CAPACITY : float := F64.dec 206 100.
Definition PR_THRESHOLD : float := F64.dec 75 100.
Definition INVERTER_EFF_THRESHOLD : float := F64.dec 90 100.

(** ** Spreadsheets and data frames *)

(** A cell of a sheet as pandas hands it over: empty (NaN), a number, a text
    or a date-time (nanoseconds since the epoch). *)
Inductive Cell : Type :=
| Blank
| Number (x : float)
| Text (s : string)
| Time (t : Z).

(** A sheet is the list of its physical rows; a workbook names its sheets. *)
Definition Sheet : Type := list (list Cell).
Definition Workbook : Type := list (string * Sheet).

(** What [pd.ExcelFile(f).parse(name)] returns: the first physical row gives
    the column labels, the other rows are the data. *)
Record DataFrame : Type := {
  columns : list Cell;
  rows : list (list Cell)
}.

(** The exceptions that pandas and the list index raise in this program;
    the program defines no exception of its own, and handles none. *)
Inductive PyError : Type :=
| SheetNotFound      (* parse: no worksheet of that name *)
| RowOutOfBounds     (* DataFrame.iloc[i] below the last row *)
| ColumnOutOfBounds  (* list[i] beyond the last label *)
| NotASeries         (* pd.to_numeric on the columns of a repeated label *)
| KeyNotUnique       (* pd.merge on a key label that is repeated *)
| ColumnNotFound     (* df[label] on a label that the join has suffixed *)
| MergeKeyTypes.     (* pd.merge on key columns of different kinds *)

Inductive ExceptionClass : Type :=
| ValueError
| IndexError
| TypeError
| KeyError.

Definition exception_class (e : PyError) : ExceptionClass :=
  match e with
  | SheetNotFound => ValueError
  | RowOutOfBounds => IndexError
  | ColumnOutOfBounds => IndexError
  | NotASeries => TypeError
  | KeyNotUnique => ValueError
  | ColumnNotFound => KeyError
  | MergeKeyTypes => ValueError
  end.

Definition Exc (A : Type) : Type := PyError + A.

Definition ret {A} (a : A) : Exc A := inr a.
Definition raise {A} (e : PyError) : Exc A := inl e.
Definition bind {A B} (m : Exc A) (k : A -> Exc B) : Exc B :=
  match m with
  | inl e => inl e
  | inr a => k a
  end.

Notation "x <- m ;; k" := (bind m (fun x => k))
  (at level 61, m at next level, right associativity).

Fixpoint get_sheet (name : string) (book : Workbook) : option Sheet :=
  match book with
  | [] => None
  | (n, s) :: book' => if String.eqb n name then Some s else get_sheet name book'
  end.

Definition parse (book : Workbook) (name : string) : Exc DataFrame :=
  match get_sheet name book with
  | None => raise SheetNotFound
  | Some [] => ret {| columns := []; rows := [] |}
  | Some (header :: data) => ret {| columns := header; rows := data |}
  end.

(** A frame is as wide as the widest row of its sheet. *)
Definition frame_width (df : DataFrame) : nat :=
  fold_right Nat.max 0 (map (@List.length Cell) (columns df :: rows df)).

(** A row seen through the frame's columns: filled with empty cells. *)
Definition pad (width : nat) (r : list Cell) : list Cell :=
  firstn width (r ++ repeat Blank width).

(** [df.iloc[i].tolist()] *)
Definition iloc (df : DataFrame) (i : nat) : Exc (list Cell) :=
  match nth_error (rows df) i with
  | Some r => ret (pad (frame_width df) r)
  | None => raise RowOutOfBounds
  end.

(** [l[i]] on a Python list *)
Definition list_index (l : list Cell) (i : nat) : Exc Cell :=
  match nth_error l i with
  | Some c => ret c
  | None => raise ColumnOutOfBounds
  end.

(** ** Equal cells *)

(** [pd.merge] and [rename] match keys and labels by value: the two zeros are one key, and empty
    keys match each other. *)
Definition key_norm (c : Cell) : Cell :=
  match c with
  | Number (S754_zero _) => Number F64.zero
  | _ => c
  end.

Definition cell_same (a b : Cell) : bool :=
  match a, b with
  | Blank, Blank => true
  | Number x, Number y => F64.same x y
  | Text s, Text t => String.eqb s t
  | Time s, Time t => Z.eqb s t
  | _, _ => false
  end.

Definition key_eqb (a b : Cell) : bool := cell_same (key_norm a) (key_norm b).

(** ** Column labels *)

(** The labels after
    [rename(columns={labels[ts_col]: 'Start Time', labels[val_col]: val_name})]:
    every label equal to one of the two is renamed, the second entry of the
    mapping winning when the two are equal. *)
Definition renamed_labels (labels : list Cell) (ts_col val_col : nat)
    (val_name : string) : list Cell :=
  map (fun c =>
         if key_eqb c (nth val_col labels Blank) then Text val_name
         else if key_eqb c (nth ts_col labels Blank) then Text "Start Time"
         else c)
      labels.

Definition count_label (name : string) (labels : list Cell) : nat :=
  List.length (filter (cell_same (Text name)) labels).

Definition has_label (name : string) (labels : list Cell) : bool :=
  existsb (cell_same (Text name)) labels.

(** [pd.to_numeric(df[name], ...)]: with one column of that label [df[name]]
    is a series; with several it is a frame, which [to_numeric] refuses. *)
Definition one_column (name : string) (labels : list Cell) : Exc unit :=
  if Nat.eqb (count_label name labels) 1 then ret tt else raise NotASeries.

(** A loaded series keeps, of every row, the ['Start Time'] cell and the
    numeric column of its role (['Irradiance'], ['Active Energy (kWh)'] or
    ['Energy Output (kWh)']). *)
Record TimeSeriesRow : Type := {
  ts : Cell;
  value : float
}.

Section Loader.

(** [pd.to_numeric] reads numeric text; that reading is pandas' own and is
    taken as given. *)
Variable str_to_float : string -> option float.

(** [pd.to_numeric(_, errors='coerce')] on one cell: what cannot be read
    becomes NaN. *)
Definition to_numeric (c : Cell) : float :=
  match c with
  | Number x => x
  | Text s => match str_to_float s with Some x => x | None => F64.nan end
  | Blank | Time _ => F64.nan
  end.

(** The three steps shared by the loaders on the rows [iloc[3:]]:
    [to_numeric], [dropna], and the filter [value >= 0]. *)
Definition sanitize (ts_col val_col : nat) (data : list (list Cell))
  : list TimeSeriesRow :=
  let converted :=
    map (fun r => {| ts := nth ts_col r Blank;
                     value := to_numeric (nth val_col r Blank) |}) data in
  let dropped := filter (fun r => negb (F64.is_nan (value r))) converted in
  filter (fun r => F64.geb (value r) F64.zero) dropped.

(** The body shared by the three loaders.  The columns are renamed by the
    labels found in the third data row, and the value column is then taken
    by its new label: once that label is on one column only, this is the
    column at [val_col].  (Empty labels are taken to be one label.) *)
Definition load_columns (file : Workbook) (ts_col val_col : nat)
    (val_name : string) : Exc (list TimeSeriesRow) :=
  df <- parse file "5 minutes" ;;
  labels <- iloc df 2 ;;
  _ <- list_index labels ts_col ;;
  _ <- list_index labels val_col ;;
  _ <- one_column val_name (renamed_labels labels ts_col val_col val_name) ;;
  ret (sanitize ts_col val_col (skipn 3 (rows df))).

Definition load_sensor_data_em (file_em : Workbook) : Exc (list TimeSeriesRow) :=
  load_columns file_em 3 4 "Irradiance".

Definition load_revenue_meter_data_rm (file_rm : Workbook) : Exc (list TimeSeriesRow) :=
  load_columns file_rm 3 5 "Active Energy (kWh)".

Definition load_inverter_data (file : Workbook) : Exc (list TimeSeriesRow) :=
  load_columns file 3 5 "Energy Output (kWh)".

End Loader.

(** ** Joining on ['Start Time'] *)

(** [pd.merge(left, right, on='Start Time', how='inner')]: every pair of a
    left and a right row with the same key, in the order of the left rows.
    The two frames are taken to have key columns of one kind and no other
    column label in common, so that the join itself raises nothing. *)
Definition merge {A B C : Type} (keyA : A -> Cell) (keyB : B -> Cell)
    (join : A -> B -> C) (left : list A) (right : list B) : list C :=
  flat_map
    (fun a => map (join a) (filter (fun b => key_eqb (keyA a) (keyB b)) right))
    left.

(** ** Performance ratio *)

Inductive Status : Type := Good | Needs_Attention.

Inductive Issue : Type :=
| Kotoran_Modul                 (* module soiling *)
| Kalibrasi_Sensor_Dibutuhkan   (* sensor calibration needed *)
| Tidak_Ada_Masalah.            (* no issue *)

(** A row of [merged_df]; the column ['Indikasi Masalah'] exists once
    [identify_performance_issues] has run. *)
Record PRRow : Type := {
  Start_Time : Cell;
  Irradiance : float;
  Active_Energy : float;
  PR : float;
  Performance_Status : Status;
  Indikasi_Masalah : option Issue
}.

Definition performance_ratio (energy irradiance pv_capacity : float) : float :=
  F64.div energy (F64.mul (F64.mul irradiance pv_capacity) (F64.of_Z 1000)).

Definition performance_status (x threshold : float) : Status :=
  if F64.geb x threshold then Good else Needs_Attention.

Definition calculate_performance_ratio (df_em df_rm : list TimeSeriesRow)
    (pv_capacity threshold : float) : list PRRow :=
  merge ts ts
    (fun em rm =>
       let pr := performance_ratio (value rm) (value em) pv_capacity in
       {| Start_Time := ts em;
          Irradiance := value em;
          Active_Energy := value rm;
          PR := pr;
          Performance_Status := performance_status pr threshold;
          Indikasi_Masalah := None |})
    df_em df_rm.

Definition check_issue (pr threshold : float) : Issue :=
  if F64.ltb pr threshold then
    if F64.ltb pr (F64.mul threshold (F64.dec 9 10)) then Kotoran_Modul
    else Kalibrasi_Sensor_Dibutuhkan
  else Tidak_Ada_Masalah.

Definition identify_performance_issues (df : list PRRow) (threshold : float)
    : list PRRow :=
  map (fun row =>
         {| Start_Time := Start_Time row;
            Irradiance := Irradiance row;
            Active_Energy := Active_Energy row;
            PR := PR row;
            Performance_Status := Performance_Status row;
            Indikasi_Masalah := Some (check_issue (PR row) threshold) |})
      df.

(** The first two stages as [main] chains them, with one threshold. *)
Definition pr_pipeline (df_em df_rm : list TimeSeriesRow)
    (pv_capacity threshold : float) : list PRRow :=
  identify_performance_issues
    (calculate_performance_ratio df_em df_rm pv_capacity threshold) threshold.

(** ** Inverter efficiency *)

Record InverterSummary : Type := {
  Inverter_File : string;
  Low_Efficiency_Count : nat;
  Mean_Efficiency : float
}.

Definition simulated_energy (irradiance pv_capacity : float) : float :=
  F64.mul (F64.mul irradiance pv_capacity) (F64.of_Z 1000).

(** A row of [df_merged_inv] once the two derived columns are there. *)
Record InverterRow : Type := {
  merged_row : PRRow;
  Energy_Output : float;
  Simulated_Energy : float;
  Inverter_Efficiency : float
}.

Section Analyzer.

(** The sum of a float column is numpy's; the order in which it adds is
    its own, so the sum is taken as given. *)
Variable np_sum : list float -> float.

(** [Series.mean()]: NaN entries are skipped (counted out and added as 0),
    and a column without any number has mean NaN. *)
Definition series_mean (xs : list float) : float :=
  let count := List.length (filter (fun x => negb (F64.is_nan x)) xs) in
  let the_sum := np_sum (map (fun x => if F64.is_nan x then F64.zero else x) xs) in
  match count with
  | O => F64.nan
  | S _ => F64.div the_sum (F64.of_Z (Z.of_nat count))
  end.

(** The body of the loop of [analyze_inverter_performance] up to the
    efficiency column. *)
Definition inverter_rows (merged_df : list PRRow) (inv_data : list TimeSeriesRow)
    (pv_capacity : float) : list InverterRow :=
  let df_merged_inv :=
    merge Start_Time ts
      (fun m i => (m, value i, simulated_energy (Irradiance m) pv_capacity))
      merged_df inv_data in
  let kept :=
    filter (fun r => F64.gtb (snd r) F64.zero) df_merged_inv in
  map (fun r =>
         {| merged_row := fst (fst r);
            Energy_Output := snd (fst r);
            Simulated_Energy := snd r;
            Inverter_Efficiency := F64.div (snd (fst r)) (snd r) |})
      kept.

Definition analyze_inverter (merged_df : list PRRow)
    (inv : list TimeSeriesRow * string) (pv_capacity eff_threshold : float)
    : InverterSummary :=
  let df_merged_inv := inverter_rows merged_df (fst inv) pv_capacity in
  let low_eff_df :=
    filter (fun r => F64.ltb (Inverter_Efficiency r) eff_threshold) df_merged_inv in
  {| Inverter_File := snd inv;
     Low_Efficiency_Count := List.length low_eff_df;
     Mean_Efficiency := series_mean (map Inverter_Efficiency df_merged_inv) |}.

Definition analyze_inverter_performance (merged_df : list PRRow)
    (inverter_df_list : list (list TimeSeriesRow * string))
    (pv_capacity eff_threshold : float) : list InverterSummary :=
  map (fun inv => analyze_inverter merged_df inv pv_capacity eff_threshold)
      inverter_df_list.

End Analyzer.

(** A plain left-to-right sum, for concrete runs. *)
Definition seq_sum (xs : list float) : float :=
  fold_left F64.add xs F64.zero.

(** ** The application *)

(** What a run puts on the page, in order. *)
Inductive Shown : Type :=
| Success_EM_RM
| Dataframe_PR (head : list PRRow)
| Charts_PR (merged_data : list PRRow)
| Success_Inverter
| Dataframe_Inverter (summary : list InverterSummary)
| Chart_Inverter (summary : list InverterSummary)
| Warning_No_Inverter
| Error_No_EM_RM.

(** A run writes to the page and may stop on an exception. *)
Definition App (A : Type) : Type := list Shown -> list Shown * Exc A.

Definition unit_app {A} (a : A) : App A := fun page => (page, ret a).
Definition lift {A} (m : Exc A) : App A := fun page => (page, m).
Definition show (s : Shown) : App unit := fun page => (page ++ [s], ret tt).
Definition bind_app {A B} (m : App A) (k : A -> App B) : App B :=
  fun page =>
    match m page with
    | (page', inl e) => (page', inl e)
    | (page', inr a) => k a page'
    end.

Notation "x <~ m ;; k" := (bind_app m (fun x => k))
  (at level 61, m at next level, right associativity).
Notation "m ;;; k" := (bind_app m (fun _ => k))
  (at level 61, right associativity).

(** *** Labels and key columns of the frames of [main]

    The frames of the program keep every column of their sheet, and the
    joins and the column lookups go by label; the key column of a loaded
    frame is a column of objects (it held the label text of the title rows),
    while [main] turns the key column of [merged_data] into dates. *)

(** The labels of the third data row, as the loaders read them. *)
Definition raw_labels (file : Workbook) : list Cell :=
  match parse file "5 minutes" with
  | inr df => match iloc df 2 with
              | inr labels => labels
              | inl _ => []
              end
  | inl _ => []
  end.

(** The labels of the frame that a loader returns. *)
Definition frame_labels (file : Workbook) (val_col : nat) (val_name : string)
    : list Cell :=
  renamed_labels (raw_labels file) 3 val_col val_name.

(** Lines 61-62: [pd.merge] needs the key label once in each frame, and
    the two value columns keep their labels only when the other frame has
    no column of that label. *)
Definition pr_columns (em_labels rm_labels : list Cell) : Exc unit :=
  if negb (Nat.eqb (count_label "Start Time" em_labels) 1)
     || negb (Nat.eqb (count_label "Start Time" rm_labels) 1)
  then raise KeyNotUnique
  else if has_label "Active Energy (kWh)" em_labels
          || has_label "Irradiance" rm_labels
  then raise ColumnNotFound
  else ret tt.

Definition is_nil {A : Type} (l : list A) : bool :=
  match l with
  | [] => true
  | _ :: _ => false
  end.

(** Lines 92-98 for one inverter frame: the key label once, key columns of
    one kind unless exactly one of the two frames is empty, and the columns
    ['Irradiance'] and ['Energy Output (kWh)'] under their own labels. *)
Definition inverter_columns (em_labels rm_labels inv_labels : list Cell)
    (merged_data : list PRRow) (inv_data : list TimeSeriesRow) : Exc unit :=
  if negb (Nat.eqb (count_label "Start Time" inv_labels) 1)
  then raise KeyNotUnique
  else if Bool.eqb (is_nil merged_data) (is_nil inv_data)
  then raise MergeKeyTypes
  else if has_label "Irradiance" inv_labels
          || xorb (has_label "Energy Output (kWh)" em_labels)
                  (has_label "Energy Output (kWh)" rm_labels)
  then raise ColumnNotFound
  else ret tt.





Record Uploads : Type := {
  em_file : option Workbook;
  rm_file : option Workbook;
  inverter_files : list (string * Workbook);
  button : bool
}.

Section Application.

Variable str_to_float : string -> option float.
(** [pd.to_datetime(_, errors='coerce')] on one cell, pandas' own. *)
Variable to_datetime : Cell -> Cell.
Variable np_sum : list float -> float.

(** The loop of [main] over the inverter files: no handler, so the first
    file that fails to load ends the loop with its exception. *)
Fixpoint load_inverter_files (files : list (string * Workbook))
  : Exc (list (list TimeSeriesRow * string)) :=
  match files with
  | [] => ret []
  | (name, inv_file) :: files' =>
      inv_data <- load_inverter_data str_to_float inv_file ;;
      inverter_df_list <- load_inverter_files files' ;;
      ret ((inv_data, name) :: inverter_df_list)
  end.

Definition convert_start_time (merged_data : list PRRow) : list PRRow :=
  map (fun row =>
         {| Start_Time := to_datetime (Start_Time row);
            Irradiance := Irradiance row;
            Active_Energy := Active_Energy row;
            PR := PR row;
            Performance_Status := Performance_Status row;
            Indikasi_Masalah := Indikasi_Masalah row |})
      merged_data.

(** The call of [analyze_inverter_performance] from [main]: its loop joins
    the frames one after the other, and the first join or column lookup that
    pandas refuses ends it. *)
Fixpoint refused_join (em_labels rm_labels : list Cell)
    (merged_data : list PRRow) (files : list (string * Workbook))
    (inverter_df_list : list (list TimeSeriesRow * string)) : Exc unit :=
  match files, inverter_df_list with
  | (_, inv_file) :: files', (inv_data, _) :: inverter_df_list' =>
      _ <- inverter_columns em_labels rm_labels
             (frame_labels inv_file 5 "Energy Output (kWh)")
             merged_data inv_data ;;
      refused_join em_labels rm_labels merged_data files' inverter_df_list'
  | _, _ => ret tt
  end.

Definition inverter_stage (em_labels rm_labels : list Cell)
    (merged_data : list PRRow) (files : list (string * Workbook))
    : App unit :=
  match files with
  | [] => show Warning_No_Inverter
  | _ :: _ =>
      inverter_df_list <~ lift (load_inverter_files files) ;;
      _ <~ lift (refused_join em_labels rm_labels merged_data files
                   inverter_df_list) ;;
      let inverter_summary :=
        analyze_inverter_performance np_sum merged_data inverter_df_list
          PV_CAPACITY INVERTER_EFF_THRESHOLD in
      show Success_Inverter ;;;
      show (Dataframe_Inverter inverter_summary) ;;;
      show (Chart_Inverter inverter_summary)
  end.

Definition main (up : Uploads) : App unit :=
  if button up then
    match em_file up, rm_file up with
    | Some em, Some rm =>
        df_em <~ lift (load_sensor_data_em str_to_float em) ;;
        df_rm <~ lift (load_revenue_meter_data_rm str_to_float rm) ;;
        show Success_EM_RM ;;;
        let em_labels := frame_labels em 4 "Irradiance" in
        let rm_labels := frame_labels rm 5 "Active Energy (kWh)" in
        _ <~ lift (pr_columns em_labels rm_labels) ;;
        let merged_data :=
          pr_pipeline df_em df_rm PV_CAPACITY PR_THRESHOLD in
        show (Dataframe_PR (firstn 10 merged_data)) ;;;
        let merged_data := convert_start_time merged_data in
        show (Charts_PR merged_data) ;;;
        inverter_stage em_labels rm_labels merged_data (inverter_files up)
    | _, _ => show Error_No_EM_RM
    end
  else unit_app tt.

End Application.

(** ** Sample data *)

Definition reading (t : Z) (v : float) : TimeSeriesRow :=
  {| ts := Time t; value := v |}.

(** Two five-minute intervals: irradiance [100, 200], energy [80, 150]. *)
Definition scenario_em : list TimeSeriesRow :=
  [reading 0 (F64.of_Z 100); reading 300 (F64.of_Z 200)].
Definition scenario_rm : list TimeSeriesRow :=
  [reading 0 (F64.of_Z 80); reading 300 (F64.of_Z 150)].

(** One interval without irradiance and without energy. *)
Definition outage_em : list TimeSeriesRow := [reading 0 F64.zero].
Definition outage_rm : list TimeSeriesRow := [reading 0 F64.zero].

(** What the refinement of the status by the issue asks of one row. *)
Definition issue_refines_status (row : PRRow) : Prop :=
  (Performance_Status row = Needs_Attention ->
   Indikasi_Masalah row = Some Kalibrasi_Sensor_Dibutuhkan \/
   Indikasi_Masalah row = Some Kotoran_Modul) /\
  (Performance_Status row = Good ->
   Indikasi_Masalah row = Some Tidak_Ada_Masalah).

(** A sheet laid out as the loaders expect: four rows of titles and labels,
    then the data, with ['Start Time'] in column 3 and the values in columns
    4 and 5. *)
Definition label_row : list Cell :=
  [Text "No"; Text "Site"; Text "Device"; Text "Start Time";
   Text "Irradiance"; Text "Energy"].

Definition data_row (t : Z) (irradiance energy : Z) : list Cell :=
  [Number (F64.of_Z 1); Text "Plant"; Text "D1"; Time t;
   Number (F64.of_Z irradiance); Number (F64.of_Z energy)].

Definition sample_sheet : Sheet :=
  [label_row; label_row; label_row; label_row;
   data_row 0 100 80; data_row 300 200 150].

Definition sample_file : Workbook := [("5 minutes"%string, sample_sheet)].

(** A file whose sheet stops after the title rows, and a file without the
    sheet. *)
Definition short_file : Workbook :=
  [("5 minutes"%string, [label_row; label_row; label_row])].
Definition other_file : Workbook := [("Sheet1"%string, sample_sheet)].

(** An EM file, an RM file and an inverter file of one plant: each sheet
    has its own labels, and only ['Start Time'] is in all of them. *)
Definition em_label_row : list Cell :=
  [Text "No"; Text "Station"; Text "Sensor"; Text "Start Time";
   Text "Irradiance"; Text "Temperature"].
Definition rm_label_row : list Cell :=
  [Text "Index"; Text "Site"; Text "Meter"; Text "Start Time";
   Text "Voltage"; Text "Active Energy (kWh)"].
Definition inv_label_row : list Cell :=
  [Text "Row"; Text "Plant"; Text "Inverter"; Text "Start Time";
   Text "Current"; Text "Energy Output (kWh)"].

Definition em_sheet : Sheet :=
  [em_label_row; em_label_row; em_label_row; em_label_row;
   data_row 0 100 25; data_row 300 200 26].
Definition rm_sheet : Sheet :=
  [rm_label_row; rm_label_row; rm_label_row; rm_label_row;
   data_row 0 230 80; data_row 300 231 150].
Definition inv_sheet : Sheet :=
  [inv_label_row; inv_label_row; inv_label_row; inv_label_row;
   data_row 0 12 80; data_row 300 13 150].

Definition plant_em_file : Workbook := [("5 minutes"%string, em_sheet)].
Definition plant_rm_file : Workbook := [("5 minutes"%string, rm_sheet)].
Definition plant_inv_file : Workbook := [("5 minutes"%string, inv_sheet)].


(** The reading of numeric text and of dates used in concrete runs: no text
    is numeric, and the cells are left as they are. *)
Definition no_numeric_text (s : string) : option float := None.
Definition keep_cell (c : Cell) : Cell := c.


(** ** Counting timestamps *)

Definition keys (series : list TimeSeriesRow) : list Cell := map ts series.

(** No two entries are the same key. *)
Fixpoint unique_keys (ks : list Cell) : bool :=
  match ks with
  | [] => true
  | k :: ks' => negb (existsb (key_eqb k) ks') && unique_keys ks'
  end.

(** Every key once. *)
Fixpoint distinct (ks : list Cell) : list Cell :=
  match ks with
  | [] => []
  | k :: ks' => if existsb (key_eqb k) ks' then distinct ks' else k :: distinct ks'
  end.

(** The number of pairs of equal keys. *)
Definition pair_count (ks1 ks2 : list Cell) : nat :=
  List.length (flat_map (fun a => filter (key_eqb a) ks2) ks1).

(** The timestamps found in both series. *)
Definition shared_timestamps (df_em df_rm : list TimeSeriesRow) : list Cell :=
  filter (fun k => existsb (key_eqb k) (keys df_rm)) (distinct (keys df_em)).

(** The pairs of an irradiance row and a revenue row of one timestamp. *)
Definition matching_pairs (df_em df_rm : list TimeSeriesRow)
    : list (TimeSeriesRow * TimeSeriesRow) :=
  filter (fun p => key_eqb (ts (fst p)) (ts (snd p))) (list_prod df_em df_rm).

(** Two readings in each series, all of one timestamp. *)
Definition repeated_em : list TimeSeriesRow :=
  [reading 0 (F64.of_Z 100); reading 0 (F64.of_Z 200)].
Definition repeated_rm : list TimeSeriesRow :=
  [reading 0 (F64.of_Z 80); reading 0 (F64.of_Z 150)].

(** ** Provenance of loaded rows *)

(** [x] is read from a row of [sheet] below its first four rows: the
    timestamp from column [ts_col], the value from column [val_col]. *)
Definition loaded_from (str_to_float : string -> option float)
    (ts_col val_col : nat) (sheet : Sheet) (x : TimeSeriesRow) : Prop :=
  exists r, In r (skipn 4 sheet) /\
            ts x = nth ts_col r Blank /\
            value x = to_numeric str_to_float (nth val_col r Blank).

(** A sheet of five columns: wide enough for the EM loader only. *)
Definition narrow_row (t : Z) (irradiance : Z) : list Cell :=
  [Number (F64.of_Z 1); Text "Plant"; Text "D1"; Time t;
   Number (F64.of_Z irradiance)].

Definition narrow_sheet : Sheet :=
  [narrow_row 0 0; narrow_row 0 0; narrow_row 0 0; narrow_row 0 0;
   narrow_row 0 100; narrow_row 300 (-7)].

Definition narrow_file : Workbook := [("5 minutes"%string, narrow_sheet)].

(** ** One error for every malformed table *)

(** A table whose sheet is absent or has fewer than four physical rows. *)
Definition malformed (file : Workbook) : Prop :=
  get_sheet "5 minutes" file = None \/
  exists sheet, get_sheet "5 minutes" file = Some sheet /\
                List.length sheet < 4.

(** A loader that fails on every malformed table with an error of one and
    the same class. *)
Definition fails_with_one_error
    (load : Workbook -> Exc (list TimeSeriesRow)) : Prop :=
  exists cls, forall file,
    malformed file ->
    exists e, load file = inl e /\ exception_class e = cls.

(** ** The zero with a sign *)

Definition negative_zero : float := S754_zero true.

(** An EM sheet whose one reading is the number -0.0, the series it loads
    as, and a revenue reading of 5 kWh for the same interval. *)
Definition dark_sheet : Sheet :=
  [em_label_row; em_label_row; em_label_row; em_label_row;
   [Number (F64.of_Z 1); Text "Plant"; Text "D1"; Time 0;
    Number negative_zero; Number (F64.of_Z 25)]].
Definition dark_file : Workbook := [("5 minutes"%string, dark_sheet)].
Definition dark_em : list TimeSeriesRow :=
  [{| ts := Time 0; value := negative_zero |}].
Definition lit_rm : list TimeSeriesRow := [reading 0 (F64.of_Z 5)].

(** ** The rows of a sheet as readings *)

Definition reading_of (str_to_float : string -> option float)
    (ts_col val_col : nat) (r : list Cell) : TimeSeriesRow :=
  {| ts := nth ts_col r Blank;
     value := to_numeric str_to_float (nth val_col r Blank) |}.

(** A value that is a number and is [>= 0]. *)
Definition valid_value (x : float) : bool :=
  negb (F64.is_nan x) && F64.geb x F64.zero.

(** * Properties *)

(** ** Concrete runs *)

Example load_sample_em :
  load_sensor_data_em no_numeric_text sample_file = inr scenario_em.
Proof. vm_compute. reflexivity. Qed.

Example load_sample_rm :
  load_revenue_meter_data_rm no_numeric_text sample_file = inr scenario_rm.
Proof. vm_compute. reflexivity. Qed.

Example load_other_file :
  load_inverter_data no_numeric_text other_file = inl SheetNotFound.
Proof. reflexivity. Qed.

(** A value label that is on two columns, and a sheet whose first row is
    shorter than its label row. *)
Example load_repeated_value_label :
  load_sensor_data_em no_numeric_text
    [("5 minutes"%string,
      [label_row; label_row; label_row;
       [Text "Irradiance"; Text "Site"; Text "Device"; Text "Start Time";
        Text "GHI"; Text "Energy"];
       data_row 0 100 80])]
  = inl NotASeries.
Proof. vm_compute. reflexivity. Qed.

Example load_ragged_sheet :
  load_sensor_data_em no_numeric_text
    [("5 minutes"%string,
      [[Text "Report"]; []; []; label_row; data_row 0 100 80])]
  = inr [reading 0 (F64.of_Z 100)].
Proof. vm_compute. reflexivity. Qed.

(** An EM file and an RM file that both have a column ['Irradiance']: the
    join suffixes the two, and the run stops at the column lookup. *)
Example main_on_a_shared_value_label :
  main no_numeric_text keep_cell seq_sum
    {| em_file := Some sample_file; rm_file := Some sample_file;
       inverter_files := []; button := true |} []
  = ([Success_EM_RM], inl ColumnNotFound).
Proof. vm_compute. reflexivity. Qed.

(** Inverter files that all load: the join of the frame of dates with a
    loaded frame is refused. *)
Example main_on_loaded_inverter_files :
  snd (main no_numeric_text keep_cell seq_sum
         {| em_file := Some plant_em_file; rm_file := Some plant_rm_file;
            inverter_files := [("inv1.xlsx"%string, plant_inv_file)];
            button := true |} [])
  = inl MergeKeyTypes.
Proof. vm_compute. reflexivity. Qed.

(** Negative and unreadable values are dropped, zero is kept. *)
Example sanitize_drops :
  sanitize no_numeric_text 0 1
    [[Time 0; Number (F64.of_Z (-5))]; [Time 1; Text "n/a"];
     [Time 2; Number F64.zero]; [Time 3]]
  = [reading 2 F64.zero].
Proof. vm_compute. reflexivity. Qed.

(** The sign of a zero irradiance is the sign of the infinite PR. *)
Example signed_zero_irradiance :
  performance_ratio (F64.of_Z 5) (S754_zero false) PV_CAPACITY = F64.pinf /\
  performance_ratio (F64.of_Z 5) (S754_zero true) PV_CAPACITY = F64.ninf.
Proof. vm_compute. split; reflexivity. Qed.

(** Both intervals of the scenario need attention, with soiled modules. *)
Example scenario_labels :
  map (fun row => (Performance_Status row, Indikasi_Masalah row))
    (pr_pipeline scenario_em scenario_rm (F64.dec 10 10) PR_THRESHOLD)
  = [(Needs_Attention, Some Kotoran_Modul);
     (Needs_Attention, Some Kotoran_Modul)].
Proof. vm_compute. reflexivity. Qed.

(** Efficiencies 0.95, 0.80 and 0.92 against the threshold 0.90: one low
    value, and a mean of 0.89. *)
Example three_efficiencies :
  let effs := [F64.dec 95 100; F64.dec 80 100; F64.dec 92 100] in
  List.length (filter (fun e => F64.ltb e INVERTER_EFF_THRESHOLD) effs) = 1 /\
  series_mean seq_sum effs = F64.dec 89 100.
Proof. vm_compute. split; reflexivity. Qed.

(** ** Comparisons of binary64 numbers *)

Lemma SFcompare_antisym (x y : float) (c : comparison) :
  SFcompare x y = Some c -> SFcompare y x = Some (CompOpp c).
Proof.
  destruct x as [sx | sx | | sx mx ex], y as [sy | sy | | sy my ey];
    simpl; try discriminate;
    try (destruct sx; intros [= <-]; reflexivity);
    try (destruct sy; intros [= <-]; reflexivity);
    try (destruct sx, sy; intros [= <-]; reflexivity).
  intros [= <-].
  pose proof (Pos.compare_cont_antisym mx my Eq) as Hm. simpl in Hm.
  destruct sx, sy; try reflexivity;
    rewrite (Z.compare_antisym ex ey);
    destruct (ex ?= ey)%Z; simpl; try reflexivity;
    rewrite <- Hm; try rewrite CompOpp_involutive; reflexivity.
Qed.

Lemma SFcompare_defined (x y : float) :
  F64.is_nan x = false -> F64.is_nan y = false ->
  exists c, SFcompare x y = Some c.
Proof.
  destruct x, y; simpl; try discriminate; intros _ _; eexists; reflexivity.
Qed.

Lemma SFcompare_nan_l (y : float) : SFcompare S754_nan y = None.
Proof. destruct y; reflexivity. Qed.

Lemma SFcompare_nan_r (x : float) : SFcompare x S754_nan = None.
Proof. destruct x; reflexivity. Qed.

(** On numbers, [x >= t] is the negation of [x < t]. *)
Lemma geb_negb_ltb (x t : float) :
  F64.is_nan x = false -> F64.is_nan t = false ->
  F64.geb x t = negb (F64.ltb x t).
Proof.
  intros Hx Ht. unfold F64.geb, F64.ltb, SFleb, SFltb.
  destruct (SFcompare_defined x t Hx Ht) as [c Hc].
  rewrite Hc, (SFcompare_antisym _ _ Hc). destruct c; reflexivity.
Qed.

(** Without any assumption, [x >= t] excludes [x < t]. *)
Lemma geb_ltb_false (x t : float) : F64.geb x t = true -> F64.ltb x t = false.
Proof.
  unfold F64.geb, F64.ltb, SFleb, SFltb.
  destruct (SFcompare t x) as [c|] eqn:Hc; try discriminate.
  rewrite (SFcompare_antisym _ _ Hc). destruct c; simpl; congruence.
Qed.

Lemma eqb_geb (x t : float) : F64.eqb x t = true -> F64.geb x t = true.
Proof.
  unfold F64.eqb, F64.geb, SFeqb, SFleb.
  destruct (SFcompare x t) as [c|] eqn:Hc; try discriminate.
  rewrite (SFcompare_antisym _ _ Hc). destruct c; simpl; congruence.
Qed.

Lemma eqb_ltb_false (x t : float) : F64.eqb x t = true -> F64.ltb x t = false.
Proof.
  unfold F64.eqb, F64.ltb, SFeqb, SFltb.
  destruct (SFcompare x t) as [[| |]|]; congruence.
Qed.

Lemma leb_gtb_false (x t : float) : F64.leb x t = true -> F64.gtb x t = false.
Proof. apply geb_ltb_false. Qed.

Lemma geb_nan_l (t : float) : F64.geb F64.nan t = false.
Proof. unfold F64.geb, SFleb. rewrite SFcompare_nan_r. reflexivity. Qed.

Lemma ltb_nan_l (t : float) : F64.ltb F64.nan t = false.
Proof. unfold F64.ltb, SFltb. rewrite SFcompare_nan_l. reflexivity. Qed.

Lemma geb_pinf (t : float) : F64.is_nan t = false -> F64.geb F64.pinf t = true.
Proof.
  destruct t as [s | s | | s m e]; try destruct s;
    intros H; try discriminate H; reflexivity.
Qed.

(** ** Rows of the joined frame *)

Lemma in_merge {A B C : Type} (keyA : A -> Cell) (keyB : B -> Cell)
    (join : A -> B -> C) (left : list A) (right : list B) (c : C) :
  In c (merge keyA keyB join left right) <->
  exists a b, In a left /\ In b right /\
              key_eqb (keyA a) (keyB b) = true /\ c = join a b.
Proof.
  unfold merge. rewrite in_flat_map. split.
  - intros (a & Ha & Hc). apply in_map_iff in Hc as (b & <- & Hb).
    apply filter_In in Hb as [Hb Hk]. now exists a, b.
  - intros (a & b & Ha & Hb & Hk & ->). exists a. split; [assumption|].
    apply in_map. apply filter_In. now split.
Qed.

Lemma in_calculate_performance_ratio (df_em df_rm : list TimeSeriesRow)
    (pv_capacity threshold : float) (row : PRRow) :
  In row (calculate_performance_ratio df_em df_rm pv_capacity threshold) <->
  exists em rm, In em df_em /\ In rm df_rm /\ key_eqb (ts em) (ts rm) = true /\
    row = {| Start_Time := ts em;
             Irradiance := value em;
             Active_Energy := value rm;
             PR := performance_ratio (value rm) (value em) pv_capacity;
             Performance_Status :=
               performance_status
                 (performance_ratio (value rm) (value em) pv_capacity) threshold;
             Indikasi_Masalah := None |}.
Proof. unfold calculate_performance_ratio. apply in_merge. Qed.

Lemma in_pr_pipeline (df_em df_rm : list TimeSeriesRow)
    (pv_capacity threshold : float) (row : PRRow) :
  In row (pr_pipeline df_em df_rm pv_capacity threshold) ->
  Performance_Status row = performance_status (PR row) threshold /\
  Indikasi_Masalah row = Some (check_issue (PR row) threshold).
Proof.
  unfold pr_pipeline, identify_performance_issues. intros H.
  apply in_map_iff in H as (r & <- & Hr).
  apply in_calculate_performance_ratio in Hr as (em & rm & _ & _ & _ & ->).
  simpl. split; reflexivity.
Qed.

Lemma of_Z_1000 : F64.of_Z 1000 = S754_finite false 8796093022208000 (-43).
Proof. vm_compute. reflexivity. Qed.

(** ** The performance ratio and its status *)

(** C1: every row of [calculate_performance_ratio] comes from an irradiance
    row and a revenue row with the same ['Start Time'], and its PR is
    [energy / (irradiance * pv_capacity * 1000)]; with irradiance
    [100, 200], energy [80, 150] and capacity 1.0 the PR column is
    [0.0008, 0.00075]. *)
Theorem pr_is_energy_over_scaled_irradiance :
  (forall (df_em df_rm : list TimeSeriesRow) (pv_capacity threshold : float)
          (row : PRRow),
      In row (calculate_performance_ratio df_em df_rm pv_capacity threshold) ->
      PR row =
        F64.div (Active_Energy row)
          (F64.mul (F64.mul (Irradiance row) pv_capacity) (F64.of_Z 1000)) /\
      exists em rm,
        In em df_em /\ In rm df_rm /\ key_eqb (ts em) (ts rm) = true /\
        Start_Time row = ts em /\
        Irradiance row = value em /\ Active_Energy row = value rm) /\
  map PR (calculate_performance_ratio scenario_em scenario_rm
            (F64.dec 10 10) PR_THRESHOLD)
  = [F64.dec 8 10000; F64.dec 75 100000].
Proof.
  split.
  - intros df_em df_rm pv threshold row H.
    apply in_calculate_performance_ratio in H as (em & rm & Hem & Hrm & Hk & ->).
    simpl. split; [reflexivity|]. exists em, rm. repeat split; assumption.
  - vm_compute. reflexivity.
Qed.

Lemma pr_is_energy_over_scaled_irradiance_witness :
  let row := {| Start_Time := Time 0;
                Irradiance := F64.of_Z 100;
                Active_Energy := F64.of_Z 80;
                PR := F64.dec 8 10000;
                Performance_Status := Needs_Attention;
                Indikasi_Masalah := None |} in
  In row (calculate_performance_ratio scenario_em scenario_rm
            (F64.dec 10 10) PR_THRESHOLD) /\
  PR row =
    F64.div (Active_Energy row)
      (F64.mul (F64.mul (Irradiance row) (F64.dec 10 10)) (F64.of_Z 1000)).
Proof.
  intros row.
  assert (Hin : In row (calculate_performance_ratio scenario_em scenario_rm
                          (F64.dec 10 10) PR_THRESHOLD))
    by (vm_compute; left; reflexivity).
  split; [exact Hin|].
  exact (proj1 (proj1 pr_is_energy_over_scaled_irradiance
                  scenario_em scenario_rm (F64.dec 10 10) PR_THRESHOLD row Hin)).
Defined.

Lemma status_of_row (df_em df_rm : list TimeSeriesRow)
    (pv_capacity threshold : float) (row : PRRow) :
  In row (calculate_performance_ratio df_em df_rm pv_capacity threshold) ->
  Performance_Status row = performance_status (PR row) threshold.
Proof.
  intros H.
  apply in_calculate_performance_ratio in H as (em & rm & _ & _ & _ & ->).
  reflexivity.
Qed.

(** C6: a row of [calculate_performance_ratio] is ['Good'] exactly when
    [PR >= threshold] and ['Needs Attention'] otherwise; a PR equal to the
    threshold is ['Good']. *)
Theorem status_good_iff_pr_ge_threshold
    (df_em df_rm : list TimeSeriesRow) (pv_capacity threshold : float)
    (row : PRRow) :
  In row (calculate_performance_ratio df_em df_rm pv_capacity threshold) ->
  (Performance_Status row = Good <-> F64.geb (PR row) threshold = true) /\
  (Performance_Status row = Needs_Attention <->
   F64.geb (PR row) threshold = false) /\
  (F64.eqb (PR row) threshold = true -> Performance_Status row = Good).
Proof.
  intros H. rewrite (status_of_row _ _ _ _ _ H).
  unfold performance_status.
  split; [|split].
  - destruct (F64.geb (PR row) threshold); split; congruence.
  - destruct (F64.geb (PR row) threshold); split; congruence.
  - intros He. now rewrite (eqb_geb _ _ He).
Qed.

Lemma status_good_iff_pr_ge_threshold_witness :
  let row := {| Start_Time := Time 0;
                Irradiance := F64.of_Z 100;
                Active_Energy := F64.of_Z 80;
                PR := F64.dec 8 10000;
                Performance_Status := Needs_Attention;
                Indikasi_Masalah := None |} in
  In row (calculate_performance_ratio scenario_em scenario_rm
            (F64.dec 10 10) PR_THRESHOLD) /\
  (Performance_Status row = Needs_Attention <->
   F64.geb (PR row) PR_THRESHOLD = false).
Proof.
  intros row.
  assert (Hin : In row (calculate_performance_ratio scenario_em scenario_rm
                          (F64.dec 10 10) PR_THRESHOLD))
    by (vm_compute; left; reflexivity).
  split; [exact Hin|].
  exact (proj1 (proj2 (status_good_iff_pr_ge_threshold
                  scenario_em scenario_rm (F64.dec 10 10) PR_THRESHOLD row Hin))).
Defined.

(** ** The issue label *)

(** C7: on a finite PR (and a threshold that is a number) [check_issue]
    follows the two-tier rule: [PR >= threshold] gives no issue; below the
    threshold, [PR < threshold * 0.9] gives module soiling and anything else
    sensor calibration; a PR equal to [threshold * 0.9] is calibration, not
    soiling. *)
Theorem check_issue_two_tier_rule (pr threshold : float) :
  F64.is_finite pr = true ->
  F64.is_nan threshold = false ->
  (F64.geb pr threshold = true ->
   check_issue pr threshold = Tidak_Ada_Masalah) /\
  (F64.ltb pr threshold = true ->
   F64.ltb pr (F64.mul threshold (F64.dec 9 10)) = true ->
   check_issue pr threshold = Kotoran_Modul) /\
  (F64.geb pr threshold = false ->
   ~ (F64.ltb pr threshold = true /\
      F64.ltb pr (F64.mul threshold (F64.dec 9 10)) = true) ->
   check_issue pr threshold = Kalibrasi_Sensor_Dibutuhkan) /\
  (F64.ltb pr threshold = true ->
   F64.eqb pr (F64.mul threshold (F64.dec 9 10)) = true ->
   check_issue pr threshold = Kalibrasi_Sensor_Dibutuhkan) /\
  check_issue (F64.mul PR_THRESHOLD (F64.dec 9 10)) PR_THRESHOLD
  = Kalibrasi_Sensor_Dibutuhkan.
Proof.
  intros Hfin Hthr.
  assert (Hpr : F64.is_nan pr = false) by (destruct pr; simpl in *; congruence).
  pose proof (geb_negb_ltb pr threshold Hpr Hthr) as Hge.
  unfold check_issue.
  repeat split.
  - intros H. rewrite H in Hge. symmetry in Hge.
    apply negb_true_iff in Hge. now rewrite Hge.
  - intros H1 H2. now rewrite H1, H2.
  - intros H Hnot. rewrite H in Hge. symmetry in Hge.
    apply negb_false_iff in Hge. rewrite Hge.
    destruct (F64.ltb pr (F64.mul threshold (F64.dec 9 10))) eqn:H9;
      [exfalso; apply Hnot; now split | reflexivity].
  - intros H1 H2. rewrite H1, (eqb_ltb_false _ _ H2). reflexivity.
Qed.

Lemma check_issue_two_tier_rule_witness :
  F64.ltb (F64.dec 70 100) PR_THRESHOLD = true /\
  check_issue (F64.dec 70 100) PR_THRESHOLD = Kalibrasi_Sensor_Dibutuhkan.
Proof.
  split; [vm_compute; reflexivity|].
  refine (proj1 (proj2 (proj2 (check_issue_two_tier_rule
            (F64.dec 70 100) PR_THRESHOLD _ _))) _ _).
  - vm_compute; reflexivity.
  - vm_compute; reflexivity.
  - vm_compute; reflexivity.
  - vm_compute. intros [_ H]. discriminate H.
Defined.

(** C2, as stated, fails: an interval with irradiance 0 and energy 0 has a
    NaN PR, which is ['Needs Attention'] by [>=] and without issue by [<]. *)
Lemma issue_refinement_fails_on_nan :
  ~ (forall row,
       In row (pr_pipeline outage_em outage_rm PV_CAPACITY PR_THRESHOLD) ->
       issue_refines_status row).
Proof.
  intros H.
  destruct (H {| Start_Time := Time 0;
                 Irradiance := F64.zero;
                 Active_Energy := F64.zero;
                 PR := F64.nan;
                 Performance_Status := Needs_Attention;
                 Indikasi_Masalah := Some Tidak_Ada_Masalah |}) as [Hna _].
  - vm_compute. left. reflexivity.
  - destruct (Hna eq_refl) as [Hc | Hc]; discriminate Hc.
Qed.

(** C2, amended: with a threshold that is a number, the issue refines the
    status on every row of the pipeline whose PR is not NaN (infinite PRs
    included); a row whose PR is NaN is ['Needs Attention'] and carries no
    issue. *)
Theorem issue_refines_status_unless_nan
    (df_em df_rm : list TimeSeriesRow) (pv_capacity threshold : float)
    (row : PRRow) :
  In row (pr_pipeline df_em df_rm pv_capacity threshold) ->
  F64.is_nan threshold = false ->
  (F64.is_nan (PR row) = false -> issue_refines_status row) /\
  (F64.is_nan (PR row) = true ->
   Performance_Status row = Needs_Attention /\
   Indikasi_Masalah row = Some Tidak_Ada_Masalah).
Proof.
  intros Hin Hthr. destruct (in_pr_pipeline _ _ _ _ _ Hin) as [Hs Hi].
  unfold issue_refines_status. rewrite Hs, Hi.
  unfold performance_status, check_issue. split.
  - intros Hpr. rewrite (geb_negb_ltb _ _ Hpr Hthr).
    destruct (F64.ltb (PR row) threshold); simpl.
    + split; [|discriminate]. intros _.
      destruct (F64.ltb (PR row) (F64.mul threshold (F64.dec 9 10)));
        [right | left]; reflexivity.
    + split; [discriminate | reflexivity].
  - intros Hpr. destruct (PR row); try discriminate Hpr.
    change S754_nan with F64.nan. rewrite geb_nan_l, ltb_nan_l. now split.
Qed.

Lemma issue_refines_status_unless_nan_witness :
  let row := {| Start_Time := Time 0;
                Irradiance := F64.of_Z 100;
                Active_Energy := F64.of_Z 80;
                PR := F64.dec 8 10000;
                Performance_Status := Needs_Attention;
                Indikasi_Masalah := Some Kotoran_Modul |} in
  In row (pr_pipeline scenario_em scenario_rm (F64.dec 10 10) PR_THRESHOLD) /\
  F64.is_nan PR_THRESHOLD = false /\
  F64.is_nan (PR row) = false /\
  issue_refines_status row.
Proof.
  intros row.
  assert (Hin : In row (pr_pipeline scenario_em scenario_rm
                          (F64.dec 10 10) PR_THRESHOLD))
    by (vm_compute; left; reflexivity).
  assert (Hthr : F64.is_nan PR_THRESHOLD = false) by (vm_compute; reflexivity).
  assert (Hpr : F64.is_nan (PR row) = false) by (vm_compute; reflexivity).
  split; [exact Hin|]. split; [exact Hthr|]. split; [exact Hpr|].
  exact (proj1 (issue_refines_status_unless_nan
                  scenario_em scenario_rm (F64.dec 10 10) PR_THRESHOLD
                  row Hin Hthr) Hpr).
Defined.

(** ** Zero irradiance *)

Lemma in_sanitize (str_to_float : string -> option float)
    (ts_col val_col : nat) (data : list (list Cell)) (r : list Cell) :
  In r data ->
  F64.geb (to_numeric str_to_float (nth val_col r Blank)) F64.zero = true ->
  In {| ts := nth ts_col r Blank;
        value := to_numeric str_to_float (nth val_col r Blank) |}
     (sanitize str_to_float ts_col val_col data).
Proof.
  intros Hr Hge. unfold sanitize.
  apply filter_In. split; [|exact Hge].
  apply filter_In. split.
  - apply (in_map (fun r => {| ts := nth ts_col r Blank;
                               value := to_numeric str_to_float
                                          (nth val_col r Blank) |})).
    exact Hr.
  - simpl. destruct (to_numeric str_to_float (nth val_col r Blank));
      try reflexivity.
    discriminate Hge.
Qed.

Lemma load_columns_inr (str_to_float : string -> option float)
    (file : Workbook) (ts_col val_col : nat) (val_name : string)
    (series : list TimeSeriesRow) :
  load_columns str_to_float file ts_col val_col val_name = inr series ->
  exists df, parse file "5 minutes" = inr df /\
             series = sanitize str_to_float ts_col val_col (skipn 3 (rows df)).
Proof.
  unfold load_columns, bind.
  destruct (parse file "5 minutes") as [e | df]; [discriminate|].
  destruct (iloc df 2) as [e | labels]; [discriminate|].
  destruct (list_index labels ts_col); [discriminate|].
  destruct (list_index labels val_col); [discriminate|].
  destruct (one_column val_name
              (renamed_labels labels ts_col val_col val_name));
    [discriminate|].
  intros [= <-]. now exists df.
Qed.

Lemma pr_zero_irradiance_positive_energy (irradiance_sign : bool)
    (energy pv_capacity : float) :
  F64.is_finite pv_capacity = true ->
  F64.gtb pv_capacity F64.zero = true ->
  F64.gtb energy F64.zero = true ->
  performance_ratio energy (S754_zero irradiance_sign) pv_capacity
  = S754_infinity irradiance_sign.
Proof.
  intros Hfin Hpos He. unfold performance_ratio. rewrite of_Z_1000.
  destruct pv_capacity as [s | s | | s m e]; try discriminate Hfin;
    destruct s; try discriminate Hpos.
  destruct energy as [s | s | | s m' e']; try discriminate He;
    destruct s; try discriminate He; destruct irradiance_sign; reflexivity.
Qed.

Lemma pr_zero_irradiance_zero_energy (irradiance_sign : bool)
    (energy pv_capacity : float) :
  F64.eqb energy F64.zero = true ->
  performance_ratio energy (S754_zero irradiance_sign) pv_capacity = F64.nan.
Proof.
  intros He. unfold performance_ratio. rewrite of_Z_1000.
  destruct energy as [s | s | | s m' e']; try discriminate He;
    try (destruct s; discriminate He).
  destruct pv_capacity as [s' | s' | | s' m e]; reflexivity.
Qed.

Lemma geb_ninf (t : float) : t <> F64.ninf -> F64.geb F64.ninf t = false.
Proof.
  destruct t as [s | s | | s m e]; try destruct s;
    intros H; try reflexivity.
  exfalso. apply H. reflexivity.
Qed.

(** C10, as stated, fails: the number -0.0 is irradiance exactly 0 and
    passes the loader's filter [>= 0]; with positive energy the division
    gives PR = -infinity, which is ['Needs Attention']. *)
Lemma negative_zero_irradiance_is_not_good :
  load_sensor_data_em no_numeric_text dark_file = inr dark_em /\
  ~ (forall row,
       In row (calculate_performance_ratio dark_em lit_rm
                 PV_CAPACITY PR_THRESHOLD) ->
       F64.eqb (Irradiance row) F64.zero = true ->
       F64.gtb (Active_Energy row) F64.zero = true ->
       PR row = F64.pinf /\ Performance_Status row = Good).
Proof.
  split; [vm_compute; reflexivity|].
  intros H.
  destruct (H {| Start_Time := Time 0;
                 Irradiance := negative_zero;
                 Active_Energy := F64.of_Z 5;
                 PR := F64.ninf;
                 Performance_Status := Needs_Attention;
                 Indikasi_Masalah := None |}) as [Hpr _].
  - vm_compute. left. reflexivity.
  - reflexivity.
  - vm_compute. reflexivity.
  - discriminate Hpr.
Qed.

(** C10, amended: the EM loader keeps a data row whose irradiance reads 0,
    of either sign; on a joined row with irradiance 0 (and a finite positive
    capacity) the division is not guarded.  With positive energy, irradiance
    +0.0 gives PR = +infinity, which is ['Good'] against any threshold that
    is a number, and irradiance -0.0 gives PR = -infinity, which is
    ['Needs Attention'] against any threshold but -infinity; with energy 0,
    either zero gives PR = NaN, which is ['Needs Attention']. *)
Theorem zero_irradiance_is_kept_and_divides_by_its_sign :
  (forall (str_to_float : string -> option float) (file_em : Workbook)
          (df_em : list TimeSeriesRow),
      load_sensor_data_em str_to_float file_em = inr df_em ->
      exists df,
        parse file_em "5 minutes" = inr df /\
        forall r, In r (skipn 3 (rows df)) ->
                  F64.eqb (to_numeric str_to_float (nth 4 r Blank)) F64.zero
                  = true ->
                  In {| ts := nth 3 r Blank;
                        value := to_numeric str_to_float (nth 4 r Blank) |}
                     df_em) /\
  (forall (df_em df_rm : list TimeSeriesRow) (pv_capacity threshold : float)
          (row : PRRow),
      In row (calculate_performance_ratio df_em df_rm pv_capacity threshold) ->
      F64.eqb (Irradiance row) F64.zero = true ->
      F64.is_finite pv_capacity = true ->
      F64.gtb pv_capacity F64.zero = true ->
      (F64.gtb (Active_Energy row) F64.zero = true ->
       (Irradiance row = F64.zero ->
        PR row = F64.pinf /\
        (F64.is_nan threshold = false -> Performance_Status row = Good)) /\
       (Irradiance row = negative_zero ->
        PR row = F64.ninf /\
        (threshold <> F64.ninf ->
         Performance_Status row = Needs_Attention))) /\
      (F64.eqb (Active_Energy row) F64.zero = true ->
       PR row = F64.nan /\ Performance_Status row = Needs_Attention)).
Proof.
  split.
  - intros str_to_float file_em df_em Hload.
    apply load_columns_inr in Hload as (df & Hparse & ->).
    exists df. split; [exact Hparse|].
    intros r Hr Hz. apply in_sanitize; [exact Hr|]. now apply eqb_geb.
  - intros df_em df_rm pv threshold row Hin Hirr Hfin Hpos.
    apply in_calculate_performance_ratio in Hin
      as (em & rm & _ & _ & _ & ->).
    simpl in *. split.
    + intros He. split; intros Hz; rewrite Hz.
      * unfold F64.zero.
        rewrite (pr_zero_irradiance_positive_energy false _ _ Hfin Hpos He).
        split; [reflexivity|]. intros Hthr.
        unfold performance_status.
        change (S754_infinity false) with F64.pinf.
        now rewrite (geb_pinf _ Hthr).
      * unfold negative_zero.
        rewrite (pr_zero_irradiance_positive_energy true _ _ Hfin Hpos He).
        split; [reflexivity|]. intros Hthr.
        unfold performance_status.
        change (S754_infinity true) with F64.ninf.
        now rewrite (geb_ninf Hthr).
    + intros He.
      destruct (value em) as [s | s | | s m e]; try discriminate Hirr;
        try (destruct s; discriminate Hirr).
      rewrite (pr_zero_irradiance_zero_energy s _ pv He).
      split; [reflexivity|].
      unfold performance_status. now rewrite geb_nan_l.
Qed.

Lemma zero_irradiance_is_kept_and_divides_by_its_sign_witness :
  (let row := {| Start_Time := Time 0;
                 Irradiance := F64.zero;
                 Active_Energy := F64.of_Z 5;
                 PR := F64.pinf;
                 Performance_Status := Good;
                 Indikasi_Masalah := None |} in
   In row (calculate_performance_ratio outage_em lit_rm
             PV_CAPACITY PR_THRESHOLD) /\
   PR row = F64.pinf /\ Performance_Status row = Good) /\
  (let row := {| Start_Time := Time 0;
                 Irradiance := negative_zero;
                 Active_Energy := F64.of_Z 5;
                 PR := F64.ninf;
                 Performance_Status := Needs_Attention;
                 Indikasi_Masalah := None |} in
   In row (calculate_performance_ratio dark_em lit_rm
             PV_CAPACITY PR_THRESHOLD) /\
   PR row = F64.ninf /\ Performance_Status row = Needs_Attention).
Proof.
  split; intros row.
  - assert (Hin : In row (calculate_performance_ratio outage_em lit_rm
                            PV_CAPACITY PR_THRESHOLD))
      by (vm_compute; left; reflexivity).
    split; [exact Hin|].
    destruct (proj2 zero_irradiance_is_kept_and_divides_by_its_sign
                outage_em lit_rm PV_CAPACITY PR_THRESHOLD row Hin)
      as [Hpos _];
      try (vm_compute; reflexivity).
    destruct Hpos as [[Hpr Hst] _];
      try (vm_compute; reflexivity).
    split; [exact Hpr | apply Hst; vm_compute; reflexivity].
  - assert (Hin : In row (calculate_performance_ratio dark_em lit_rm
                            PV_CAPACITY PR_THRESHOLD))
      by (vm_compute; left; reflexivity).
    split; [exact Hin|].
    destruct (proj2 zero_irradiance_is_kept_and_divides_by_its_sign
                dark_em lit_rm PV_CAPACITY PR_THRESHOLD row Hin)
      as [Hpos _];
      try (vm_compute; reflexivity).
    destruct Hpos as [_ [Hpr Hst]];
      try (vm_compute; reflexivity).
    split; [exact Hpr | apply Hst; vm_compute; discriminate].
Defined.

(** ** Loading *)

Lemma parse_short_sheet (file : Workbook) (sheet : Sheet) :
  get_sheet "5 minutes" file = Some sheet ->
  List.length sheet < 4 ->
  exists df, parse file "5 minutes" = inr df /\ iloc df 2 = inl RowOutOfBounds.
Proof.
  intros Hs Hlen. unfold parse. rewrite Hs.
  destruct sheet as [| header data].
  - eexists. split; reflexivity.
  - eexists. split; [reflexivity|]. unfold iloc. simpl rows.
    assert (Hn : nth_error data 2 = None)
      by (apply nth_error_None; simpl in Hlen; lia).
    now rewrite Hn.
Qed.

Lemma load_columns_no_sheet (str_to_float : string -> option float)
    (file : Workbook) (ts_col val_col : nat) (val_name : string) :
  get_sheet "5 minutes" file = None ->
  load_columns str_to_float file ts_col val_col val_name = inl SheetNotFound.
Proof. intros H. unfold load_columns, parse. now rewrite H. Qed.

Lemma load_columns_short_sheet (str_to_float : string -> option float)
    (file : Workbook) (sheet : Sheet) (ts_col val_col : nat)
    (val_name : string) :
  get_sheet "5 minutes" file = Some sheet ->
  List.length sheet < 4 ->
  load_columns str_to_float file ts_col val_col val_name
  = inl RowOutOfBounds.
Proof.
  intros Hs Hlen.
  destruct (parse_short_sheet _ Hs Hlen) as (df & Hp & Hi).
  unfold load_columns. rewrite Hp. simpl. now rewrite Hi.
Qed.

(** C4, as stated, fails: there is no one error for the malformed tables.
    A file without the sheet stops the loader in [parse], with a ValueError;
    a sheet of three rows stops it in [iloc], with an IndexError. *)
Lemma malformed_tables_raise_different_errors :
  ~ fails_with_one_error (load_sensor_data_em no_numeric_text).
Proof.
  intros [cls H].
  destruct (H other_file) as (e1 & H1 & C1); [left; reflexivity|].
  destruct (H short_file) as (e2 & H2 & C2).
  { right. eexists. split; [reflexivity | simpl; lia]. }
  vm_compute in H1, H2.
  injection H1 as <-. injection H2 as <-.
  simpl in C1, C2. congruence.
Qed.

(** C4, amended: when the sheet ['5 minutes'] is absent, or has fewer than 4
    physical rows, each of the three loaders fails and returns no series;
    the error is pandas' own, of the step that cannot proceed: the missing
    worksheet in the first case, the row index out of bounds in the
    second. *)
Theorem loaders_fail_on_malformed_table
    (str_to_float : string -> option float) (file : Workbook) :
  (get_sheet "5 minutes" file = None ->
   load_sensor_data_em str_to_float file = inl SheetNotFound /\
   load_revenue_meter_data_rm str_to_float file = inl SheetNotFound /\
   load_inverter_data str_to_float file = inl SheetNotFound) /\
  (forall sheet,
      get_sheet "5 minutes" file = Some sheet ->
      List.length sheet < 4 ->
      load_sensor_data_em str_to_float file = inl RowOutOfBounds /\
      load_revenue_meter_data_rm str_to_float file = inl RowOutOfBounds /\
      load_inverter_data str_to_float file = inl RowOutOfBounds).
Proof.
  split.
  - intros H. repeat split; now apply load_columns_no_sheet.
  - intros sheet Hs Hlen.
    repeat split; eapply load_columns_short_sheet; eassumption.
Qed.

Lemma loaders_fail_on_malformed_table_witness :
  List.length [label_row; label_row; label_row] < 4 /\
  load_sensor_data_em no_numeric_text short_file = inl RowOutOfBounds /\
  load_revenue_meter_data_rm no_numeric_text short_file = inl RowOutOfBounds /\
  load_inverter_data no_numeric_text short_file = inl RowOutOfBounds.
Proof.
  split; [simpl; lia|].
  apply (proj2 (loaders_fail_on_malformed_table no_numeric_text short_file)
           [label_row; label_row; label_row]).
  - reflexivity.
  - simpl; lia.
Defined.

(** ** Inverter files in [main] *)






(** ** Keys *)

Lemma same_eq (x y : float) : F64.same x y = true <-> x = y.
Proof.
  destruct x as [a | a | | a m e], y as [b | b | | b n f]; simpl;
    split; intros H; try discriminate H; try reflexivity.
  - apply Bool.eqb_prop in H. now subst.
  - injection H as ->. apply Bool.eqb_reflx.
  - apply Bool.eqb_prop in H. now subst.
  - injection H as ->. apply Bool.eqb_reflx.
  - apply andb_true_iff in H as [H He]. apply andb_true_iff in H as [Ha Hm].
    apply Bool.eqb_prop in Ha. apply Pos.eqb_eq in Hm. apply Z.eqb_eq in He.
    now subst.
  - injection H as -> -> ->.
    now rewrite Bool.eqb_reflx, Pos.eqb_refl, Z.eqb_refl.
Qed.

Lemma cell_same_eq (a b : Cell) : cell_same a b = true <-> a = b.
Proof.
  destruct a, b; simpl; split; intros H;
    try discriminate H; try reflexivity.
  - apply same_eq in H. now subst.
  - injection H as ->. now apply same_eq.
  - apply String.eqb_eq in H. now subst.
  - injection H as ->. apply String.eqb_refl.
  - apply Z.eqb_eq in H. now subst.
  - injection H as ->. apply Z.eqb_refl.
Qed.

Lemma key_eqb_norm (a b : Cell) :
  key_eqb a b = true <-> key_norm a = key_norm b.
Proof. unfold key_eqb. apply cell_same_eq. Qed.

Lemma key_eqb_refl (a : Cell) : key_eqb a a = true.
Proof. now apply key_eqb_norm. Qed.

Lemma key_eqb_sym (a b : Cell) : key_eqb a b = key_eqb b a.
Proof.
  destruct (key_eqb a b) eqn:Hab, (key_eqb b a) eqn:Hba; try reflexivity.
  - apply key_eqb_norm in Hab. symmetry in Hab.
    apply key_eqb_norm in Hab. congruence.
  - apply key_eqb_norm in Hba. symmetry in Hba.
    apply key_eqb_norm in Hba. congruence.
Qed.

Lemma key_eqb_trans (a b c : Cell) :
  key_eqb a b = true -> key_eqb b c = true -> key_eqb a c = true.
Proof.
  rewrite !key_eqb_norm. congruence.
Qed.

(** ** Counting the rows of a join *)

Lemma length_filter_map {A B : Type} (f : A -> B) (p : B -> bool) (l : list A) :
  List.length (filter (fun a => p (f a)) l) = List.length (filter p (map f l)).
Proof.
  induction l as [| a l IH]; simpl; [reflexivity|].
  destruct (p (f a)); simpl; now rewrite IH.
Qed.

Lemma length_merge {A B C : Type} (keyA : A -> Cell) (keyB : B -> Cell)
    (join : A -> B -> C) (left : list A) (right : list B) :
  List.length (merge keyA keyB join left right)
  = pair_count (map keyA left) (map keyB right).
Proof.
  unfold merge, pair_count.
  induction left as [| a left IH]; simpl; [reflexivity|].
  rewrite !length_app, length_map, IH. f_equal.
  apply (length_filter_map keyB (key_eqb (keyA a))).
Qed.

Lemma pair_count_cons_l (a : Cell) (ks1 ks2 : list Cell) :
  pair_count (a :: ks1) ks2
  = List.length (filter (key_eqb a) ks2) + pair_count ks1 ks2.
Proof. unfold pair_count. simpl. now rewrite length_app. Qed.

Lemma pair_count_cons_r (b : Cell) (ks1 ks2 : list Cell) :
  pair_count ks1 (b :: ks2)
  = List.length (filter (fun a => key_eqb a b) ks1) + pair_count ks1 ks2.
Proof.
  induction ks1 as [| a ks1 IH]; [reflexivity|].
  rewrite !pair_count_cons_l, IH. simpl.
  destruct (key_eqb a b); simpl; lia.
Qed.

Lemma pair_count_sym (ks1 ks2 : list Cell) :
  pair_count ks1 ks2 = pair_count ks2 ks1.
Proof.
  induction ks1 as [| a ks1 IH]; simpl.
  - induction ks2 as [| b ks2 IH2]; [reflexivity|].
    rewrite pair_count_cons_l. simpl. exact IH2.
  - rewrite pair_count_cons_l, pair_count_cons_r, IH. f_equal.
    f_equal. apply filter_ext. intros b. apply key_eqb_sym.
Qed.

Lemma existsb_key_false (a : Cell) (ks : list Cell) :
  existsb (key_eqb a) ks = false -> filter (key_eqb a) ks = [].
Proof.
  induction ks as [| k ks IH]; simpl; [reflexivity|].
  intros H. apply orb_false_iff in H as [Hk Hks].
  rewrite Hk. now apply IH.
Qed.

Lemma existsb_key_eqb (a k : Cell) (ks : list Cell) :
  key_eqb a k = true -> existsb (key_eqb a) ks = existsb (key_eqb k) ks.
Proof.
  intros Hak. induction ks as [| k' ks IH]; simpl; [reflexivity|].
  rewrite IH. f_equal.
  destruct (key_eqb a k') eqn:H1, (key_eqb k k') eqn:H2; try reflexivity.
  - rewrite key_eqb_sym in Hak.
    rewrite (key_eqb_trans _ _ _ Hak H1) in H2. discriminate.
  - rewrite (key_eqb_trans _ _ _ Hak H2) in H1. discriminate.
Qed.

Lemma unique_matches (a : Cell) (ks : list Cell) :
  unique_keys ks = true ->
  List.length (filter (key_eqb a) ks)
  = if existsb (key_eqb a) ks then 1 else 0.
Proof.
  induction ks as [| k ks IH]; simpl; [reflexivity|].
  intros H. apply andb_true_iff in H as [Hk Hu].
  apply negb_true_iff in Hk.
  destruct (key_eqb a k) eqn:Hak; simpl.
  - rewrite <- (existsb_key_eqb _ _ ks Hak) in Hk.
    now rewrite (existsb_key_false _ _ Hk).
  - now apply IH.
Qed.

Lemma unique_pair_count (ks1 ks2 : list Cell) :
  unique_keys ks2 = true ->
  pair_count ks1 ks2
  = List.length (filter (fun a => existsb (key_eqb a) ks2) ks1).
Proof.
  intros Hu. induction ks1 as [| a ks1 IH]; [reflexivity|].
  rewrite pair_count_cons_l, IH, (unique_matches _ _ Hu). simpl.
  destruct (existsb (key_eqb a) ks2); reflexivity.
Qed.

Lemma length_filter_le {A : Type} (p : A -> bool) (l : list A) :
  List.length (filter p l) <= List.length l.
Proof.
  induction l as [| a l IH]; simpl; [lia|]. destruct (p a); simpl; lia.
Qed.

Lemma unique_distinct (ks : list Cell) :
  unique_keys ks = true -> distinct ks = ks.
Proof.
  induction ks as [| k ks IH]; simpl; [reflexivity|].
  intros H. apply andb_true_iff in H as [Hk Hu].
  apply negb_true_iff in Hk. rewrite Hk. now rewrite IH.
Qed.

Lemma length_matching_pairs (df_em df_rm : list TimeSeriesRow) :
  List.length (matching_pairs df_em df_rm)
  = pair_count (keys df_em) (keys df_rm).
Proof.
  unfold matching_pairs, keys.
  induction df_em as [| a df_em IH]; simpl; [reflexivity|].
  rewrite filter_app, length_app, IH, pair_count_cons_l. f_equal.
  rewrite <- (length_filter_map ts (key_eqb (ts a))).
  rewrite <- (length_filter_map (fun y => (a, y))
                (fun p => key_eqb (ts (fst p)) (ts (snd p)))).
  reflexivity.
Qed.

(** C3, as stated, fails: pandas joins every pair of rows of one timestamp,
    so two readings of one timestamp on each side give four rows, more than
    either series has, for a single shared timestamp. *)
Lemma repeated_timestamps_multiply_rows :
  ~ (List.length (calculate_performance_ratio repeated_em repeated_rm
                    PV_CAPACITY PR_THRESHOLD)
     <= Nat.min (List.length repeated_em) (List.length repeated_rm) /\
     List.length (calculate_performance_ratio repeated_em repeated_rm
                    PV_CAPACITY PR_THRESHOLD)
     = List.length (shared_timestamps repeated_em repeated_rm)).
Proof. vm_compute. intros [H _]. lia. Qed.

(** C3, amended: the rows of [calculate_performance_ratio] are as many as the
    pairs of an irradiance row and a revenue row of one timestamp; when no
    timestamp is repeated within either series (in any order), that number is
    at most the length of the shorter series and is the number of shared
    timestamps. *)
Theorem row_count_of_performance_ratio
    (df_em df_rm : list TimeSeriesRow) (pv_capacity threshold : float) :
  List.length (calculate_performance_ratio df_em df_rm pv_capacity threshold)
  = List.length (matching_pairs df_em df_rm) /\
  (unique_keys (keys df_em) = true ->
   unique_keys (keys df_rm) = true ->
   List.length (calculate_performance_ratio df_em df_rm pv_capacity threshold)
   <= Nat.min (List.length df_em) (List.length df_rm) /\
   List.length (calculate_performance_ratio df_em df_rm pv_capacity threshold)
   = List.length (shared_timestamps df_em df_rm)).
Proof.
  unfold calculate_performance_ratio. rewrite length_merge.
  fold (keys df_em) (keys df_rm). split.
  - symmetry. apply length_matching_pairs.
  - intros Hem Hrm. split.
    + apply Nat.min_glb.
      * rewrite (unique_pair_count (keys df_em) (keys df_rm) Hrm).
        etransitivity; [apply length_filter_le|].
        unfold keys. now rewrite length_map.
      * rewrite pair_count_sym, (unique_pair_count (keys df_rm) (keys df_em) Hem).
        etransitivity; [apply length_filter_le|].
        unfold keys. now rewrite length_map.
    + unfold shared_timestamps. rewrite (unique_distinct _ Hem).
      apply (unique_pair_count (keys df_em) (keys df_rm) Hrm).
Qed.

Lemma row_count_of_performance_ratio_witness :
  unique_keys (keys scenario_em) = true /\
  unique_keys (keys scenario_rm) = true /\
  List.length (calculate_performance_ratio scenario_em scenario_rm
                 PV_CAPACITY PR_THRESHOLD)
  <= Nat.min (List.length scenario_em) (List.length scenario_rm) /\
  List.length (calculate_performance_ratio scenario_em scenario_rm
                 PV_CAPACITY PR_THRESHOLD)
  = List.length (shared_timestamps scenario_em scenario_rm).
Proof.
  assert (Hem : unique_keys (keys scenario_em) = true) by reflexivity.
  assert (Hrm : unique_keys (keys scenario_rm) = true) by reflexivity.
  split; [exact Hem|]. split; [exact Hrm|].
  exact (proj2 (row_count_of_performance_ratio scenario_em scenario_rm
                  PV_CAPACITY PR_THRESHOLD) Hem Hrm).
Defined.

(** ** Inverter summaries *)

Lemma filter_none {A : Type} (p : A -> bool) (l : list A) :
  (forall a, In a l -> p a = false) -> filter p l = [].
Proof.
  induction l as [| a l IH]; simpl; [reflexivity|].
  intros H. rewrite (H a (or_introl eq_refl)). apply IH.
  intros b Hb. apply H. now right.
Qed.

Lemma inverter_rows_app (before after : list PRRow)
    (inv_data : list TimeSeriesRow) (pv_capacity : float) :
  inverter_rows (before ++ after) inv_data pv_capacity
  = inverter_rows before inv_data pv_capacity
    ++ inverter_rows after inv_data pv_capacity.
Proof.
  unfold inverter_rows, merge.
  now rewrite flat_map_app, filter_app, map_app.
Qed.

Lemma inverter_rows_excluded (extra : list PRRow)
    (inv_data : list TimeSeriesRow) (pv_capacity : float) :
  (forall row, In row extra ->
     F64.leb (simulated_energy (Irradiance row) pv_capacity) F64.zero = true) ->
  inverter_rows extra inv_data pv_capacity = [].
Proof.
  intros H. unfold inverter_rows.
  rewrite filter_none; [reflexivity|].
  intros r Hr. apply in_merge in Hr as (m & i & Hm & _ & _ & ->). simpl.
  apply leb_gtb_false. now apply H.
Qed.

Lemma in_inverter_rows (merged_df : list PRRow)
    (inv_data : list TimeSeriesRow) (pv_capacity : float) (r : InverterRow) :
  In r (inverter_rows merged_df inv_data pv_capacity) ->
  In (merged_row r) merged_df /\
  Simulated_Energy r = simulated_energy (Irradiance (merged_row r)) pv_capacity /\
  F64.gtb (Simulated_Energy r) F64.zero = true /\
  Inverter_Efficiency r = F64.div (Energy_Output r) (Simulated_Energy r).
Proof.
  unfold inverter_rows. intros H.
  apply in_map_iff in H as (x & <- & Hx).
  apply filter_In in Hx as [Hx Hpos].
  apply in_merge in Hx as (m & i & Hm & _ & _ & ->). simpl in *.
  repeat split; assumption.
Qed.

(** C8: rows of the PR frame whose simulated energy
    [irradiance * pv_capacity * 1000] is [<= 0] are dropped before the
    efficiency is computed: every row that is kept has a positive simulated
    energy, and the summaries (count and mean) are the same with and
    without such rows in the frame. *)
Theorem nonpositive_simulated_energy_is_excluded
    (np_sum : list float -> float) (before extra after : list PRRow)
    (inverter_df_list : list (list TimeSeriesRow * string))
    (pv_capacity eff_threshold : float) :
  (forall row, In row extra ->
     F64.leb (simulated_energy (Irradiance row) pv_capacity) F64.zero = true) ->
  analyze_inverter_performance np_sum (before ++ extra ++ after)
    inverter_df_list pv_capacity eff_threshold
  = analyze_inverter_performance np_sum (before ++ after)
      inverter_df_list pv_capacity eff_threshold /\
  (forall (inv_data : list TimeSeriesRow) (r : InverterRow),
      In r (inverter_rows (before ++ extra ++ after) inv_data pv_capacity) ->
      F64.gtb (Simulated_Energy r) F64.zero = true /\
      Inverter_Efficiency r = F64.div (Energy_Output r) (Simulated_Energy r)).
Proof.
  intros H.
  assert (Hrows : forall inv_data,
             inverter_rows (before ++ extra ++ after) inv_data pv_capacity
             = inverter_rows (before ++ after) inv_data pv_capacity).
  { intros inv_data.
    rewrite !inverter_rows_app,
      (@inverter_rows_excluded extra inv_data pv_capacity H).
    reflexivity. }
  split.
  - unfold analyze_inverter_performance. apply map_ext. intros inv.
    unfold analyze_inverter. now rewrite Hrows.
  - intros inv_data r Hr. now apply in_inverter_rows in Hr.
Qed.

Lemma nonpositive_simulated_energy_is_excluded_witness :
  let dark := pr_pipeline outage_em outage_rm PV_CAPACITY PR_THRESHOLD in
  let lit := pr_pipeline scenario_em scenario_rm PV_CAPACITY PR_THRESHOLD in
  (forall row, In row dark ->
     F64.leb (simulated_energy (Irradiance row) PV_CAPACITY) F64.zero = true) /\
  analyze_inverter_performance seq_sum ([] ++ dark ++ lit)
    [(scenario_rm, "inv1.xlsx"%string)] PV_CAPACITY INVERTER_EFF_THRESHOLD
  = analyze_inverter_performance seq_sum ([] ++ lit)
      [(scenario_rm, "inv1.xlsx"%string)] PV_CAPACITY INVERTER_EFF_THRESHOLD.
Proof.
  intros dark lit.
  assert (H : forall row, In row dark ->
            F64.leb (simulated_energy (Irradiance row) PV_CAPACITY) F64.zero
            = true).
  { intros row [<- | []]. vm_compute. reflexivity. }
  split; [exact H|].
  exact (proj1 (nonpositive_simulated_energy_is_excluded seq_sum
                  [] dark lit [(scenario_rm, "inv1.xlsx"%string)]
                  PV_CAPACITY INVERTER_EFF_THRESHOLD H)).
Defined.

(** C9: an inverter set whose join with the PR rows is empty after the
    filter on the simulated energy is summarised with a low-efficiency count
    of 0 and a mean efficiency that is NaN, the "no data" value, which is
    not 0. *)
Theorem empty_join_has_no_mean
    (np_sum : list float -> float) (merged_df : list PRRow)
    (inverter_df_list : list (list TimeSeriesRow * string))
    (pv_capacity eff_threshold : float)
    (inv : list TimeSeriesRow * string) :
  In inv inverter_df_list ->
  inverter_rows merged_df (fst inv) pv_capacity = [] ->
  In {| Inverter_File := snd inv;
        Low_Efficiency_Count := 0;
        Mean_Efficiency := F64.nan |}
     (analyze_inverter_performance np_sum merged_df inverter_df_list
        pv_capacity eff_threshold) /\
  F64.eqb F64.nan F64.zero = false.
Proof.
  intros Hin Hempty. split; [|reflexivity].
  unfold analyze_inverter_performance.
  apply in_map_iff. exists inv. split; [|exact Hin].
  unfold analyze_inverter. rewrite Hempty. reflexivity.
Qed.

Lemma empty_join_has_no_mean_witness :
  In {| Inverter_File := "inv1.xlsx"%string;
        Low_Efficiency_Count := 0;
        Mean_Efficiency := F64.nan |}
     (analyze_inverter_performance seq_sum
        (pr_pipeline scenario_em scenario_rm PV_CAPACITY PR_THRESHOLD)
        [([reading 900 (F64.of_Z 50)], "inv1.xlsx"%string)]
        PV_CAPACITY INVERTER_EFF_THRESHOLD).
Proof.
  refine (proj1 (@empty_join_has_no_mean seq_sum
            (pr_pipeline scenario_em scenario_rm PV_CAPACITY PR_THRESHOLD)
            [([reading 900 (F64.of_Z 50)], "inv1.xlsx"%string)]
            PV_CAPACITY INVERTER_EFF_THRESHOLD
            ([reading 900 (F64.of_Z 50)], "inv1.xlsx"%string) _ _)).
  - left. reflexivity.
  - vm_compute. reflexivity.
Defined.

(** * Further properties *)

(** ** The order of binary64 numbers *)

Lemma lex_compare_trans (m1 m2 m3 : positive) (e1 e2 e3 : Z) (c1 c2 : comparison) :
  match (e1 ?= e2)%Z with
  | Lt => Lt | Gt => Gt | Eq => Pos.compare_cont Eq m1 m2
  end = c1 ->
  match (e2 ?= e3)%Z with
  | Lt => Lt | Gt => Gt | Eq => Pos.compare_cont Eq m2 m3
  end = c2 ->
  c1 <> Gt -> c2 <> Gt ->
  match (e1 ?= e3)%Z with
  | Lt => Lt | Gt => Gt | Eq => Pos.compare_cont Eq m1 m3
  end = match c1 with Eq => c2 | _ => Lt end.
Proof.
  intros H1 H2 N1 N2. subst c1 c2.
  change (Pos.compare_cont Eq) with Pos.compare in *.
  destruct (Z.compare_spec e1 e2), (Z.compare_spec e2 e3),
    (Z.compare_spec e1 e3); try lia; try congruence;
    destruct (Pos.compare_spec m1 m2), (Pos.compare_spec m2 m3),
      (Pos.compare_spec m1 m3); try lia; try congruence.
Qed.

Lemma lex_compare_trans_opp (m1 m2 m3 : positive) (e1 e2 e3 : Z) (c1 c2 : comparison) :
  match (e1 ?= e2)%Z with
  | Lt => Gt | Gt => Lt | Eq => CompOpp (Pos.compare_cont Eq m1 m2)
  end = c1 ->
  match (e2 ?= e3)%Z with
  | Lt => Gt | Gt => Lt | Eq => CompOpp (Pos.compare_cont Eq m2 m3)
  end = c2 ->
  c1 <> Gt -> c2 <> Gt ->
  match (e1 ?= e3)%Z with
  | Lt => Gt | Gt => Lt | Eq => CompOpp (Pos.compare_cont Eq m1 m3)
  end = match c1 with Eq => c2 | _ => Lt end.
Proof.
  intros H1 H2 N1 N2. subst c1 c2.
  change (Pos.compare_cont Eq) with Pos.compare in *.
  destruct (Z.compare_spec e1 e2), (Z.compare_spec e2 e3),
    (Z.compare_spec e1 e3); try lia; try congruence;
    destruct (Pos.compare_spec m1 m2), (Pos.compare_spec m2 m3),
      (Pos.compare_spec m1 m3); simpl in *; try lia; try congruence.
Qed.

(** [<=] and [<] chain as on any order; a NaN is never part of a chain. *)
Lemma SFcompare_trans (x y z : float) (c1 c2 : comparison) :
  SFcompare x y = Some c1 -> SFcompare y z = Some c2 ->
  c1 <> Gt -> c2 <> Gt ->
  SFcompare x z = Some (match c1 with Eq => c2 | _ => Lt end).
Proof.
  intros H1 H2 N1 N2.
  destruct x as [sx | sx | | sx mx ex], y as [sy | sy | | sy my ey],
    z as [sz | sz | | sz mz ez];
    try discriminate H1; try discriminate H2;
    try destruct sx; try destruct sy; try destruct sz;
    simpl in H1, H2 |- *;
    injection H1 as H1; injection H2 as H2;
    try solve [subst c1 c2; reflexivity || congruence
              | destruct c1; subst c2; reflexivity || congruence].
  - f_equal. now apply (lex_compare_trans_opp mx my mz ex ey ez).
  - f_equal. now apply (lex_compare_trans mx my mz ex ey ez).
Qed.

Lemma ltb_leb_trans (x y z : float) :
  F64.ltb x y = true -> F64.leb y z = true -> F64.ltb x z = true.
Proof.
  unfold F64.ltb, F64.leb, SFltb, SFleb.
  destruct (SFcompare x y) as [[| |]|] eqn:H1; try discriminate.
  destruct (SFcompare y z) as [[| |]|] eqn:H2; try discriminate;
    intros _ _;
    rewrite (SFcompare_trans _ _ _ H1 H2); try discriminate; reflexivity.
Qed.

Lemma leb_ltb_trans (x y z : float) :
  F64.leb x y = true -> F64.ltb y z = true -> F64.ltb x z = true.
Proof.
  unfold F64.ltb, F64.leb, SFltb, SFleb.
  destruct (SFcompare x y) as [[| |]|] eqn:H1; try discriminate;
  destruct (SFcompare y z) as [[| |]|] eqn:H2; try discriminate;
    intros _ _;
    rewrite (SFcompare_trans _ _ _ H1 H2); try discriminate; reflexivity.
Qed.

Lemma leb_trans (x y z : float) :
  F64.leb x y = true -> F64.leb y z = true -> F64.leb x z = true.
Proof.
  unfold F64.leb, SFleb.
  destruct (SFcompare x y) as [[| |]|] eqn:H1; try discriminate;
  destruct (SFcompare y z) as [[| |]|] eqn:H2; try discriminate;
    intros _ _;
    rewrite (SFcompare_trans _ _ _ H1 H2); try discriminate; reflexivity.
Qed.

(** ** What the loaders return *)

Lemma parse_inr (file : Workbook) (name : string) (df : DataFrame) :
  parse file name = inr df ->
  exists sheet, get_sheet name file = Some sheet /\
                columns df = hd [] sheet /\ rows df = tl sheet.
Proof.
  unfold parse. destruct (get_sheet name file) as [[| header data] |];
    try discriminate; intros [= <-]; eexists; repeat split.
Qed.

Lemma skipn_3_tl {A : Type} (l : list A) : skipn 3 (tl l) = skipn 4 l.
Proof. destruct l; reflexivity. Qed.

Lemma in_sanitize_iff (str_to_float : string -> option float)
    (ts_col val_col : nat) (data : list (list Cell)) (x : TimeSeriesRow) :
  In x (sanitize str_to_float ts_col val_col data) <->
  (exists r, In r data /\
             ts x = nth ts_col r Blank /\
             value x = to_numeric str_to_float (nth val_col r Blank)) /\
  F64.is_nan (value x) = false /\ F64.geb (value x) F64.zero = true.
Proof.
  unfold sanitize. rewrite !filter_In, in_map_iff, negb_true_iff. split.
  - intros [[(r & <- & Hr) Hn] Hg]. simpl in *. repeat split; try assumption.
    exists r. repeat split. exact Hr.
  - intros [(r & Hr & Ht & Hv) [Hn Hg]]. repeat split; try assumption.
    exists r. split; [|exact Hr]. destruct x as [t v]. simpl in *. congruence.
Qed.

Lemma load_columns_rows (str_to_float : string -> option float)
    (file : Workbook) (ts_col val_col : nat) (val_name : string)
    (series : list TimeSeriesRow) :
  load_columns str_to_float file ts_col val_col val_name = inr series ->
  exists sheet,
    get_sheet "5 minutes" file = Some sheet /\
    series = sanitize str_to_float ts_col val_col (skipn 4 sheet).
Proof.
  intros H. apply load_columns_inr in H as (df & Hp & ->).
  apply parse_inr in Hp as (sheet & Hs & _ & Hr).
  exists sheet. split; [exact Hs|]. now rewrite Hr, skipn_3_tl.
Qed.

Lemma load_columns_provenance (str_to_float : string -> option float)
    (file : Workbook) (ts_col val_col : nat) (val_name : string)
    (series : list TimeSeriesRow) :
  load_columns str_to_float file ts_col val_col val_name = inr series ->
  exists sheet,
    get_sheet "5 minutes" file = Some sheet /\
    forall x, In x series <->
              loaded_from str_to_float ts_col val_col sheet x /\
              F64.is_nan (value x) = false /\
              F64.geb (value x) F64.zero = true.
Proof.
  intros H. apply load_columns_rows in H as (sheet & Hs & ->).
  exists sheet. split; [exact Hs|]. intros x. apply in_sanitize_iff.
Qed.

Lemma sanitize_in_order (str_to_float : string -> option float)
    (ts_col val_col : nat) (data : list (list Cell)) :
  sanitize str_to_float ts_col val_col data
  = map (reading_of str_to_float ts_col val_col)
      (filter (fun r => valid_value
                          (to_numeric str_to_float (nth val_col r Blank)))
              data).
Proof.
  unfold sanitize, valid_value, reading_of.
  induction data as [| r data IH]; [reflexivity|]. simpl.
  destruct (F64.is_nan (to_numeric str_to_float (nth val_col r Blank)));
    simpl; [exact IH|].
  destruct (F64.geb (to_numeric str_to_float (nth val_col r Blank)) F64.zero);
    simpl; [f_equal|]; exact IH.
Qed.

Lemma load_columns_in_order (str_to_float : string -> option float)
    (file : Workbook) (ts_col val_col : nat) (val_name : string)
    (series : list TimeSeriesRow) :
  load_columns str_to_float file ts_col val_col val_name = inr series ->
  exists sheet,
    get_sheet "5 minutes" file = Some sheet /\
    series
    = map (reading_of str_to_float ts_col val_col)
        (filter (fun r => valid_value
                            (to_numeric str_to_float (nth val_col r Blank)))
                (skipn 4 sheet)).
Proof.
  intros H. apply load_columns_rows in H as (sheet & Hs & ->).
  exists sheet. split; [exact Hs | apply sanitize_in_order].
Qed.

(** X1: a series returned by a loader is the list of the readings of the
    sheet's rows below the first four (timestamp from column 3, value from
    column 4 for EM and from column 5 for RM and inverters) whose value is a
    number and is [>= 0], each once and in the order of the sheet. *)
Theorem loaded_series_is_the_valid_data_rows_in_order
    (str_to_float : string -> option float) (file : Workbook)
    (series : list TimeSeriesRow) :
  (load_sensor_data_em str_to_float file = inr series ->
   exists sheet,
     get_sheet "5 minutes" file = Some sheet /\
     series
     = map (reading_of str_to_float 3 4)
         (filter (fun r => valid_value
                             (to_numeric str_to_float (nth 4 r Blank)))
                 (skipn 4 sheet))) /\
  (load_revenue_meter_data_rm str_to_float file = inr series ->
   exists sheet,
     get_sheet "5 minutes" file = Some sheet /\
     series
     = map (reading_of str_to_float 3 5)
         (filter (fun r => valid_value
                             (to_numeric str_to_float (nth 5 r Blank)))
                 (skipn 4 sheet))) /\
  (load_inverter_data str_to_float file = inr series ->
   exists sheet,
     get_sheet "5 minutes" file = Some sheet /\
     series
     = map (reading_of str_to_float 3 5)
         (filter (fun r => valid_value
                             (to_numeric str_to_float (nth 5 r Blank)))
                 (skipn 4 sheet))).
Proof. repeat split; apply load_columns_in_order. Qed.

Lemma loaded_series_is_the_valid_data_rows_in_order_witness :
  load_sensor_data_em no_numeric_text narrow_file
  = inr [reading 0 (F64.of_Z 100)] /\
  exists sheet,
    get_sheet "5 minutes" narrow_file = Some sheet /\
    [reading 0 (F64.of_Z 100)]
    = map (reading_of no_numeric_text 3 4)
        (filter (fun r => valid_value
                            (to_numeric no_numeric_text (nth 4 r Blank)))
                (skipn 4 sheet)).
Proof.
  assert (H : load_sensor_data_em no_numeric_text narrow_file
              = inr [reading 0 (F64.of_Z 100)]) by (vm_compute; reflexivity).
  split; [exact H|].
  exact (proj1 (loaded_series_is_the_valid_data_rows_in_order
                  no_numeric_text narrow_file [reading 0 (F64.of_Z 100)]) H).
Defined.

Lemma length_sanitize (str_to_float : string -> option float)
    (ts_col val_col : nat) (data : list (list Cell)) :
  List.length (sanitize str_to_float ts_col val_col data) <= List.length data.
Proof.
  unfold sanitize.
  etransitivity; [apply length_filter_le|].
  etransitivity; [apply length_filter_le|].
  now rewrite length_map.
Qed.

(** X2: a series returned by a loader has at most as many rows as the sheet
    has below its first four; a sheet of exactly four rows loads as the
    empty series. *)
Theorem loaded_series_is_no_longer_than_the_data
    (str_to_float : string -> option float) (file : Workbook)
    (series : list TimeSeriesRow) :
  load_sensor_data_em str_to_float file = inr series \/
  load_revenue_meter_data_rm str_to_float file = inr series \/
  load_inverter_data str_to_float file = inr series ->
  exists sheet,
    get_sheet "5 minutes" file = Some sheet /\
    List.length series <= List.length sheet - 4 /\
    (List.length sheet = 4 -> series = []).
Proof.
  intros H.
  assert (exists tc vc name,
             load_columns str_to_float file tc vc name = inr series)
    as (tc & vc & name & Hl)
    by (destruct H as [H | [H | H]]; eauto).
  apply load_columns_rows in Hl as (sheet & Hs & ->).
  exists sheet. split; [exact Hs|].
  pose proof (length_sanitize str_to_float tc vc (skipn 4 sheet)) as Hlen.
  rewrite length_skipn in Hlen. split; [exact Hlen|].
  intros H4. rewrite H4 in Hlen.
  destruct (sanitize str_to_float tc vc (skipn 4 sheet));
    [reflexivity | simpl in Hlen; lia].
Qed.

Lemma loaded_series_is_no_longer_than_the_data_witness :
  exists sheet,
    get_sheet "5 minutes" sample_file = Some sheet /\
    List.length scenario_rm <= List.length sheet - 4 /\
    (List.length sheet = 4 -> scenario_rm = []).
Proof.
  apply (loaded_series_is_no_longer_than_the_data no_numeric_text sample_file).
  right. left. vm_compute. reflexivity.
Defined.

Lemma fold_max_rectangular (l : list (list Cell)) (width : nat) :
  (forall r, In r l -> List.length r = width) ->
  l <> [] ->
  fold_right Nat.max 0 (map (@List.length Cell) l) = width.
Proof.
  intros Hw Hne. induction l as [| r l IH]; [contradiction|]. simpl.
  rewrite (Hw r (or_introl eq_refl)).
  destruct l as [| r' l'].
  - simpl. apply Nat.max_0_r.
  - rewrite IH; [apply Nat.max_id | | discriminate].
    intros x Hx. apply Hw. now right.
Qed.

(** X3: on a sheet of at least four rows, all of one width, a loader whose
    value column lies outside the sheet fails on the list index: the EM
    loader below five columns, the RM and inverter loaders below six. *)
Theorem loaders_fail_on_missing_column
    (str_to_float : string -> option float) (file : Workbook)
    (sheet : Sheet) (width : nat) :
  get_sheet "5 minutes" file = Some sheet ->
  4 <= List.length sheet ->
  (forall r, In r sheet -> List.length r = width) ->
  (width < 5 ->
   load_sensor_data_em str_to_float file = inl ColumnOutOfBounds) /\
  (width < 6 ->
   load_revenue_meter_data_rm str_to_float file = inl ColumnOutOfBounds /\
   load_inverter_data str_to_float file = inl ColumnOutOfBounds).
Proof.
  intros Hs Hlen Hw.
  destruct sheet as [| header [| r1 [| r2 [| labels data]]]];
    try (simpl in Hlen; lia).
  assert (Hl : List.length labels = width) by (apply Hw; simpl; auto 6).
  assert (Hfw : frame_width {| columns := header;
                               rows := r1 :: r2 :: labels :: data |}
                = width).
  { unfold frame_width. simpl columns. simpl rows.
    apply (@fold_max_rectangular (header :: r1 :: r2 :: labels :: data));
      [exact Hw | discriminate]. }
  assert (Hpad : pad width labels = labels).
  { unfold pad. rewrite <- Hl, firstn_app, Nat.sub_diag, firstn_all.
    simpl. apply app_nil_r. }
  assert (Hout : forall i, width <= i ->
             list_index labels i = inl ColumnOutOfBounds).
  { intros i Hi. unfold list_index.
    assert (Hn : nth_error labels i = None) by (apply nth_error_None; lia).
    now rewrite Hn. }
  assert (Hfail : forall vc name, width <= vc ->
             load_columns str_to_float file 3 vc name
             = inl ColumnOutOfBounds).
  { intros vc name Hvc. unfold load_columns, parse. rewrite Hs. simpl.
    unfold iloc. simpl rows. simpl nth_error. rewrite Hfw, Hpad. simpl.
    destruct (list_index labels 3) as [e3 | c3] eqn:H3; simpl.
    - destruct (Nat.lt_ge_cases 3 width) as [Hlt | Hge].
      + unfold list_index in H3.
        destruct (nth_error labels 3) eqn:Hn; [discriminate|].
        apply nth_error_None in Hn. lia.
      + rewrite (Hout 3 Hge) in H3. congruence.
    - now rewrite (Hout vc Hvc). }
  split.
  - intros H. apply Hfail. lia.
  - intros H. split; apply Hfail; lia.
Qed.

Lemma loaders_fail_on_missing_column_witness :
  load_revenue_meter_data_rm no_numeric_text narrow_file
  = inl ColumnOutOfBounds /\
  load_inverter_data no_numeric_text narrow_file = inl ColumnOutOfBounds.
Proof.
  refine (proj2 (@loaders_fail_on_missing_column
            no_numeric_text narrow_file narrow_sheet 5 _ _ _) _).
  - reflexivity.
  - simpl; lia.
  - intros r H. simpl in H.
    repeat (destruct H as [<- | H]; [reflexivity|]). contradiction.
  - lia.
Defined.

(** ** The loop over the inverter files *)

(** X4: when the loop over the inverter files ends normally, the list it
    built has one entry per uploaded file, in the order of the upload, each
    made of what [load_inverter_data] returned for the file and of the
    file's name. *)
Theorem loaded_inverter_files_follow_the_upload
    (str_to_float : string -> option float)
    (files : list (string * Workbook))
    (inverter_df_list : list (list TimeSeriesRow * string)) :
  load_inverter_files str_to_float files = inr inverter_df_list ->
  map snd inverter_df_list = map fst files /\
  map (fun inv => inr (fst inv)) inverter_df_list
  = map (fun f => load_inverter_data str_to_float (snd f)) files.
Proof.
  revert inverter_df_list.
  induction files as [| [name file] files IH]; intros l H; simpl in H.
  - injection H as <-. split; reflexivity.
  - destruct (load_inverter_data str_to_float file) as [e | inv_data] eqn:Hl;
      [discriminate|]. simpl in H.
    destruct (load_inverter_files str_to_float files) as [e | l'];
      [discriminate|]. simpl in H. injection H as <-.
    destruct (IH l' eq_refl) as [Hn Hd]. simpl.
    rewrite Hn, Hd, Hl. split; reflexivity.
Qed.

Lemma loaded_inverter_files_follow_the_upload_witness :
  map snd [(scenario_rm, "a.xlsx"%string); (scenario_rm, "b.xlsx"%string)]
  = map fst [("a.xlsx"%string, sample_file); ("b.xlsx"%string, sample_file)].
Proof.
  refine (proj1 (@loaded_inverter_files_follow_the_upload no_numeric_text
            [("a.xlsx"%string, sample_file); ("b.xlsx"%string, sample_file)]
            [(scenario_rm, "a.xlsx"%string); (scenario_rm, "b.xlsx"%string)]
            _)).
  vm_compute. reflexivity.
Defined.

(** X5: the loop over the inverter files stops at the first file that does
    not load, with the exception of that file, whatever the files after it
    are. *)
Theorem first_failing_inverter_file_decides
    (str_to_float : string -> option float)
    (loaded rest : list (string * Workbook))
    (name : string) (file : Workbook) (e : PyError) :
  (forall f, In f loaded ->
     exists inv_data, load_inverter_data str_to_float (snd f) = inr inv_data) ->
  load_inverter_data str_to_float file = inl e ->
  load_inverter_files str_to_float (loaded ++ (name, file) :: rest) = inl e.
Proof.
  intros Hok Hfail. induction loaded as [| [n f] loaded IH]; simpl.
  - now rewrite Hfail.
  - destruct (Hok (n, f) (or_introl eq_refl)) as [inv_data Hl]. simpl in Hl.
    rewrite Hl. simpl. rewrite IH; [reflexivity|].
    intros g Hg. apply Hok. now right.
Qed.

Lemma first_failing_inverter_file_decides_witness :
  load_inverter_files no_numeric_text
    ([("a.xlsx"%string, sample_file)]
       ++ ("b.xlsx"%string, other_file) :: [("c.xlsx"%string, short_file)])
  = inl SheetNotFound.
Proof.
  apply first_failing_inverter_file_decides.
  - intros f [<- | []]. eexists. vm_compute. reflexivity.
  - reflexivity.
Defined.

(** ** Runs that end before the analysis *)

(** X6: without the button [main] shows nothing; with the button and
    without an EM file or without an RM file it shows the error message
    only and ends normally, whatever the other uploads are. *)
Theorem main_without_both_files
    (str_to_float : string -> option float) (to_datetime : Cell -> Cell)
    (np_sum : list float -> float) (up : Uploads) (page : list Shown) :
  (button up = false ->
   main str_to_float to_datetime np_sum up page = (page, inr tt)) /\
  (button up = true ->
   em_file up = None \/ rm_file up = None ->
   main str_to_float to_datetime np_sum up page
   = (page ++ [Error_No_EM_RM], inr tt)).
Proof.
  unfold main. split.
  - intros ->. reflexivity.
  - intros -> [H | H]; rewrite H; [|destruct (em_file up)]; reflexivity.
Qed.

Lemma main_without_both_files_witness :
  main no_numeric_text keep_cell seq_sum
    {| em_file := Some sample_file; rm_file := None;
       inverter_files := [("a.xlsx"%string, sample_file)];
       button := true |} []
  = ([] ++ [Error_No_EM_RM], inr tt).
Proof.
  apply (proj2 (main_without_both_files no_numeric_text keep_cell seq_sum
                  {| em_file := Some sample_file; rm_file := None;
                     inverter_files := [("a.xlsx"%string, sample_file)];
                     button := true |} [])).
  - reflexivity.
  - right. reflexivity.
Defined.

(** X7: when the EM file does not load, or the EM file loads and the RM
    file does not, [main] stops with the exception of that loader before it
    shows any result; the inverter files are not looked at. *)
Theorem main_stops_on_em_or_rm_load_failure
    (str_to_float : string -> option float) (to_datetime : Cell -> Cell)
    (np_sum : list float -> float) (up : Uploads) (page : list Shown)
    (em rm : Workbook) (e : PyError) :
  button up = true ->
  em_file up = Some em ->
  rm_file up = Some rm ->
  load_sensor_data_em str_to_float em = inl e \/
  (exists df_em, load_sensor_data_em str_to_float em = inr df_em) /\
  load_revenue_meter_data_rm str_to_float rm = inl e ->
  main str_to_float to_datetime np_sum up page = (page, inl e).
Proof.
  intros Hb Hem Hrm H. unfold main. rewrite Hb, Hem, Hrm.
  unfold bind_app, lift.
  destruct H as [H | [[df_em H1] H2]].
  - now rewrite H.
  - now rewrite H1, H2.
Qed.

Lemma main_stops_on_em_or_rm_load_failure_witness :
  main no_numeric_text keep_cell seq_sum
    {| em_file := Some sample_file; rm_file := Some narrow_file;
       inverter_files := [("a.xlsx"%string, sample_file)];
       button := true |} []
  = ([], inl ColumnOutOfBounds).
Proof.
  apply (@main_stops_on_em_or_rm_load_failure
           no_numeric_text keep_cell seq_sum
           {| em_file := Some sample_file; rm_file := Some narrow_file;
              inverter_files := [("a.xlsx"%string, sample_file)];
              button := true |} [] sample_file narrow_file ColumnOutOfBounds).
  - reflexivity.
  - reflexivity.
  - reflexivity.
  - right. split; [eexists|]; vm_compute; reflexivity.
Defined.

(** ** Rows of the performance-ratio frame *)

Lemma filter_filter_implied {A : Type} (p q : A -> bool) (l : list A) :
  (forall a, In a l -> p a = true -> q a = true) ->
  filter p (filter q l) = filter p l.
Proof.
  induction l as [| a l IH]; intros H; [reflexivity|]. simpl.
  destruct (q a) eqn:Hq; simpl.
  - destruct (p a); rewrite IH; auto; intros b Hb; apply H; now right.
  - destruct (p a) eqn:Hp.
    + rewrite (H a (or_introl eq_refl) Hp) in Hq. discriminate.
    + apply IH. intros b Hb. apply H. now right.
Qed.

Lemma flat_map_agree {A B : Type} (f g : A -> list B) (l : list A) :
  (forall a, In a l -> f a = g a) -> flat_map f l = flat_map g l.
Proof.
  induction l as [| a l IH]; intros H; [reflexivity|]. simpl.
  rewrite (H a (or_introl eq_refl)), IH; [reflexivity|].
  intros b Hb. apply H. now right.
Qed.

Lemma existsb_key_true (k : Cell) (ks : list Cell) (k' : Cell) :
  In k' ks -> key_eqb k k' = true -> existsb (key_eqb k) ks = true.
Proof.
  intros Hin Hk. apply existsb_exists. now exists k'.
Qed.

Lemma merge_matched_right {A B C : Type} (keyA : A -> Cell) (keyB : B -> Cell)
    (join : A -> B -> C) (left : list A) (right : list B) :
  merge keyA keyB join left
    (filter (fun b => existsb (fun k => key_eqb k (keyB b)) (map keyA left))
            right)
  = merge keyA keyB join left right.
Proof.
  unfold merge. apply flat_map_agree. intros a Ha. f_equal.
  apply filter_filter_implied. intros b _ Hk.
  apply existsb_exists. exists (keyA a). split; [|exact Hk].
  now apply in_map.
Qed.

Lemma merge_matched_left {A B C : Type} (keyA : A -> Cell) (keyB : B -> Cell)
    (join : A -> B -> C) (left : list A) (right : list B) :
  merge keyA keyB join
    (filter (fun a => existsb (key_eqb (keyA a)) (map keyB right)) left)
    right
  = merge keyA keyB join left right.
Proof.
  unfold merge. induction left as [| a left IH]; [reflexivity|]. simpl.
  destruct (existsb (key_eqb (keyA a)) (map keyB right)) eqn:He; simpl.
  - now rewrite IH.
  - rewrite IH.
    assert (Hnone : filter (fun b => key_eqb (keyA a) (keyB b)) right = []).
    { apply filter_none. intros b Hb.
      destruct (key_eqb (keyA a) (keyB b)) eqn:Hk; [|reflexivity].
      rewrite (existsb_key_true (keyA a) (map keyB right) (keyB b)) in He;
        [discriminate | now apply in_map | exact Hk]. }
    now rewrite Hnone.
Qed.

(** X8: [calculate_performance_ratio] returns no row exactly when no
    irradiance reading and revenue reading have the same timestamp; in
    particular an empty series on either side gives an empty frame. *)
Theorem no_rows_iff_no_common_timestamp
    (df_em df_rm : list TimeSeriesRow) (pv_capacity threshold : float) :
  (calculate_performance_ratio df_em df_rm pv_capacity threshold = [] <->
   forall em rm, In em df_em -> In rm df_rm ->
                 key_eqb (ts em) (ts rm) = false) /\
  calculate_performance_ratio [] df_rm pv_capacity threshold = [] /\
  calculate_performance_ratio df_em [] pv_capacity threshold = [].
Proof.
  split; [split|split].
  - intros H em rm Hem Hrm.
    destruct (key_eqb (ts em) (ts rm)) eqn:Hk; [|reflexivity].
    exfalso.
    assert (Hin : exists row,
               In row (calculate_performance_ratio df_em df_rm
                         pv_capacity threshold)).
    { eexists. apply in_calculate_performance_ratio.
      exists em, rm. repeat split; eassumption. }
    rewrite H in Hin. destruct Hin as [row []].
  - intros H.
    destruct (calculate_performance_ratio df_em df_rm pv_capacity threshold)
      as [| row rows] eqn:Hc; [reflexivity|].
    assert (Hin : In row (calculate_performance_ratio df_em df_rm
                            pv_capacity threshold))
      by (rewrite Hc; now left).
    apply in_calculate_performance_ratio in Hin
      as (em & rm & Hem & Hrm & Hk & _).
    rewrite (H em rm Hem Hrm) in Hk. discriminate.
  - reflexivity.
  - unfold calculate_performance_ratio, merge.
    induction df_em as [| a l IH]; [reflexivity | exact IH].
Qed.

Lemma no_rows_iff_no_common_timestamp_witness :
  calculate_performance_ratio scenario_em [reading 900 (F64.of_Z 80)]
    PV_CAPACITY PR_THRESHOLD = [].
Proof.
  apply (proj1 (no_rows_iff_no_common_timestamp scenario_em
                  [reading 900 (F64.of_Z 80)] PV_CAPACITY PR_THRESHOLD)).
  intros em rm Hem Hrm.
  destruct Hrm as [<- | []].
  destruct Hem as [<- | [<- | []]]; reflexivity.
Defined.

(** X9: readings without a partner do not matter to
    [calculate_performance_ratio]: dropping the irradiance readings whose
    timestamp is not in the revenue series, or the revenue readings whose
    timestamp is not in the irradiance series, leaves the frame as it is. *)
Theorem unmatched_readings_do_not_matter
    (df_em df_rm : list TimeSeriesRow) (pv_capacity threshold : float) :
  calculate_performance_ratio
    (filter (fun em => existsb (key_eqb (ts em)) (keys df_rm)) df_em)
    df_rm pv_capacity threshold
  = calculate_performance_ratio df_em df_rm pv_capacity threshold /\
  calculate_performance_ratio df_em
    (filter (fun rm => existsb (fun k => key_eqb k (ts rm)) (keys df_em)) df_rm)
    pv_capacity threshold
  = calculate_performance_ratio df_em df_rm pv_capacity threshold.
Proof.
  unfold calculate_performance_ratio, keys. split.
  - apply merge_matched_left.
  - apply merge_matched_right.
Qed.

Lemma merge_unique_right {A B C : Type} (keyA : A -> Cell) (keyB : B -> Cell)
    (join : A -> B -> C) (f : C -> Cell * float) (g : A -> Cell * float)
    (left : list A) (right : list B) :
  (forall a b, f (join a b) = g a) ->
  unique_keys (map keyB right) = true ->
  map f (merge keyA keyB join left right)
  = map g (filter (fun a => existsb (key_eqb (keyA a)) (map keyB right)) left).
Proof.
  intros Hf Hu. unfold merge.
  induction left as [| a left IH]; [reflexivity|]. simpl.
  rewrite map_app, IH. clear IH.
  pose proof (unique_matches (keyA a) (map keyB right) Hu) as Hm.
  rewrite <- (length_filter_map keyB (key_eqb (keyA a))) in Hm.
  destruct (filter (fun b => key_eqb (keyA a) (keyB b)) right)
    as [| b [| b' bs]] eqn:Hfl;
    destruct (existsb (key_eqb (keyA a)) (map keyB right));
    simpl in Hm; try discriminate Hm.
  - reflexivity.
  - simpl. now rewrite Hf.
Qed.

(** X10: when no timestamp is repeated within either series, every
    irradiance reading whose timestamp is in the revenue series gives one
    row, and the rows come in the order of the irradiance series. *)
Theorem rows_follow_the_irradiance_series
    (df_em df_rm : list TimeSeriesRow) (pv_capacity threshold : float) :
  unique_keys (keys df_em) = true ->
  unique_keys (keys df_rm) = true ->
  map (fun row => (Start_Time row, Irradiance row))
    (calculate_performance_ratio df_em df_rm pv_capacity threshold)
  = map (fun em => (ts em, value em))
      (filter (fun em => existsb (key_eqb (ts em)) (keys df_rm)) df_em).
Proof.
  intros _ Hrm. unfold calculate_performance_ratio, keys.
  now apply merge_unique_right.
Qed.

Lemma rows_follow_the_irradiance_series_witness :
  map (fun row => (Start_Time row, Irradiance row))
    (calculate_performance_ratio
       (reading 600 (F64.of_Z 50) :: scenario_em)
       (rev scenario_rm) PV_CAPACITY PR_THRESHOLD)
  = map (fun em => (ts em, value em))
      (filter (fun em => existsb (key_eqb (ts em)) (keys (rev scenario_rm)))
              (reading 600 (F64.of_Z 50) :: scenario_em)).
Proof.
  apply rows_follow_the_irradiance_series; reflexivity.
Defined.

(** X11: in the frame computed from a loaded EM series and a loaded RM
    series, the irradiance and the energy of every row are numbers
    [>= 0]. *)
Theorem loaded_frame_has_no_negative_reading
    (str_to_float : string -> option float) (file_em file_rm : Workbook)
    (df_em df_rm : list TimeSeriesRow) (pv_capacity threshold : float)
    (row : PRRow) :
  load_sensor_data_em str_to_float file_em = inr df_em ->
  load_revenue_meter_data_rm str_to_float file_rm = inr df_rm ->
  In row (pr_pipeline df_em df_rm pv_capacity threshold) ->
  (F64.is_nan (Irradiance row) = false /\
   F64.geb (Irradiance row) F64.zero = true) /\
  (F64.is_nan (Active_Energy row) = false /\
   F64.geb (Active_Energy row) F64.zero = true).
Proof.
  intros Hem Hrm Hin.
  apply load_columns_provenance in Hem as (s1 & _ & H1).
  apply load_columns_provenance in Hrm as (s2 & _ & H2).
  unfold pr_pipeline, identify_performance_issues in Hin.
  apply in_map_iff in Hin as (r & <- & Hr).
  apply in_calculate_performance_ratio in Hr as (em & rm & Pem & Prm & _ & ->).
  simpl. split; [apply (H1 em) | apply (H2 rm)]; assumption.
Qed.

Lemma loaded_frame_has_no_negative_reading_witness :
  let row := {| Start_Time := Time 0;
                Irradiance := F64.of_Z 100;
                Active_Energy := F64.of_Z 80;
                PR := performance_ratio (F64.of_Z 80) (F64.of_Z 100) PV_CAPACITY;
                Performance_Status := Needs_Attention;
                Indikasi_Masalah := Some Kotoran_Modul |} in
  F64.geb (Irradiance row) F64.zero = true /\
  F64.geb (Active_Energy row) F64.zero = true.
Proof.
  intros row.
  destruct (@loaded_frame_has_no_negative_reading no_numeric_text
              plant_em_file plant_rm_file scenario_em scenario_rm
              PV_CAPACITY PR_THRESHOLD row) as [[_ H1] [_ H2]].
  - vm_compute. reflexivity.
  - vm_compute. reflexivity.
  - vm_compute. left. reflexivity.
  - split; assumption.
Defined.

(** ** Labels *)

(** X12: [identify_performance_issues] keeps the rows and every other
    column of the frame as they are, and running it again replaces the
    issue column: only the threshold of the last run counts. *)
Theorem identify_keeps_the_frame_and_overwrites_the_issue
    (df : list PRRow) (threshold threshold' : float) :
  map (fun row => (Start_Time row, Irradiance row, Active_Energy row,
                   PR row, Performance_Status row))
    (identify_performance_issues df threshold)
  = map (fun row => (Start_Time row, Irradiance row, Active_Energy row,
                     PR row, Performance_Status row)) df /\
  map Indikasi_Masalah (identify_performance_issues df threshold)
  = map (fun row => Some (check_issue (PR row) threshold)) df /\
  identify_performance_issues
    (identify_performance_issues df threshold) threshold'
  = identify_performance_issues df threshold'.
Proof.
  unfold identify_performance_issues.
  rewrite !map_map. repeat split.
Qed.

(** X13: a higher PR never gets a worse label: of two rows of the pipeline
    with [PR r1 <= PR r2], if [r1] is ['Good'] so is [r2], if [r1] has no
    issue neither has [r2], and if [r2] is labelled module soiling so is
    [r1]. *)
Theorem labels_are_monotone_in_pr
    (df_em df_rm : list TimeSeriesRow) (pv_capacity threshold : float)
    (r1 r2 : PRRow) :
  In r1 (pr_pipeline df_em df_rm pv_capacity threshold) ->
  In r2 (pr_pipeline df_em df_rm pv_capacity threshold) ->
  F64.leb (PR r1) (PR r2) = true ->
  (Performance_Status r1 = Good -> Performance_Status r2 = Good) /\
  (Indikasi_Masalah r1 = Some Tidak_Ada_Masalah ->
   Indikasi_Masalah r2 = Some Tidak_Ada_Masalah) /\
  (Indikasi_Masalah r2 = Some Kotoran_Modul ->
   Indikasi_Masalah r1 = Some Kotoran_Modul).
Proof.
  intros H1 H2 Hle.
  destruct (in_pr_pipeline _ _ _ _ _ H1) as [S1 I1].
  destruct (in_pr_pipeline _ _ _ _ _ H2) as [S2 I2].
  rewrite S1, S2, I1, I2. unfold performance_status, check_issue.
  split; [|split].
  - destruct (F64.geb (PR r1) threshold) eqn:G1; [|discriminate].
    intros _.
    assert (G2 : F64.geb (PR r2) threshold = true)
      by exact (leb_trans threshold (PR r1) (PR r2) G1 Hle).
    now rewrite G2.
  - destruct (F64.ltb (PR r2) threshold) eqn:L2; [|reflexivity].
    rewrite (leb_ltb_trans _ _ _ Hle L2).
    destruct (F64.ltb (PR r1) (F64.mul threshold (F64.dec 9 10)));
      discriminate.
  - destruct (F64.ltb (PR r2) threshold) eqn:L2; [|discriminate].
    destruct (F64.ltb (PR r2) (F64.mul threshold (F64.dec 9 10))) eqn:L9;
      [|discriminate].
    intros _.
    now rewrite (leb_ltb_trans _ _ _ Hle L2), (leb_ltb_trans _ _ _ Hle L9).
Qed.

Lemma labels_are_monotone_in_pr_witness :
  let r1 := {| Start_Time := Time 300;
               Irradiance := F64.of_Z 200;
               Active_Energy := F64.of_Z 150;
               PR := F64.dec 75 100000;
               Performance_Status := Needs_Attention;
               Indikasi_Masalah := Some Kotoran_Modul |} in
  let r2 := {| Start_Time := Time 0;
               Irradiance := F64.of_Z 100;
               Active_Energy := F64.of_Z 80;
               PR := F64.dec 8 10000;
               Performance_Status := Needs_Attention;
               Indikasi_Masalah := Some Kotoran_Modul |} in
  F64.leb (PR r1) (PR r2) = true /\
  (Indikasi_Masalah r2 = Some Kotoran_Modul ->
   Indikasi_Masalah r1 = Some Kotoran_Modul).
Proof.
  intros r1 r2.
  assert (Hle : F64.leb (PR r1) (PR r2) = true) by (vm_compute; reflexivity).
  split; [exact Hle|].
  apply (labels_are_monotone_in_pr scenario_em scenario_rm
           (F64.dec 10 10) PR_THRESHOLD r1 r2).
  - vm_compute. right. left. reflexivity.
  - vm_compute. left. reflexivity.
  - exact Hle.
Defined.

Lemma default_soiling_bound :
  F64.mul PR_THRESHOLD (F64.dec 9 10) = F64.dec 675 1000.
Proof. vm_compute. reflexivity. Qed.

(** X14: with the default threshold 0.75 the issue of any PR value, NaN
    included, is read off two bounds: below 0.675 module soiling, from 0.675
    and below 0.75 sensor calibration, otherwise no issue. *)
Theorem default_issue_bands (pr : float) :
  check_issue pr PR_THRESHOLD
  = if F64.ltb pr (F64.dec 675 1000) then Kotoran_Modul
    else if F64.ltb pr (F64.dec 75 100) then Kalibrasi_Sensor_Dibutuhkan
    else Tidak_Ada_Masalah.
Proof.
  unfold check_issue. rewrite default_soiling_bound.
  change PR_THRESHOLD with (F64.dec 75 100).
  destruct (F64.ltb pr (F64.dec 675 1000)) eqn:L9; [|reflexivity].
  assert (Hb : F64.leb (F64.dec 675 1000) (F64.dec 75 100) = true)
    by (vm_compute; reflexivity).
  now rewrite (ltb_leb_trans _ _ _ L9 Hb).
Qed.

(** ** Inverter summaries, continued *)

Lemma length_filter_implied {A : Type} (p q : A -> bool) (l : list A) :
  (forall a, p a = true -> q a = true) ->
  List.length (filter p l) <= List.length (filter q l).
Proof.
  intros H. induction l as [| a l IH]; simpl; [lia|].
  destruct (p a) eqn:Hp.
  - rewrite (H a Hp). simpl. lia.
  - destruct (q a); simpl; lia.
Qed.

(** X15: raising the efficiency threshold never lowers the low-efficiency
    count of an inverter, and does not change its mean efficiency. *)
Theorem low_count_grows_with_the_threshold
    (np_sum : list float -> float) (merged_df : list PRRow)
    (inv : list TimeSeriesRow * string) (pv_capacity t1 t2 : float) :
  F64.leb t1 t2 = true ->
  Low_Efficiency_Count (analyze_inverter np_sum merged_df inv pv_capacity t1)
  <= Low_Efficiency_Count (analyze_inverter np_sum merged_df inv pv_capacity t2)
  /\
  Mean_Efficiency (analyze_inverter np_sum merged_df inv pv_capacity t1)
  = Mean_Efficiency (analyze_inverter np_sum merged_df inv pv_capacity t2).
Proof.
  intros Hle. unfold analyze_inverter. simpl. split; [|reflexivity].
  apply length_filter_implied. intros r Hr.
  exact (ltb_leb_trans _ _ _ Hr Hle).
Qed.

Lemma low_count_grows_with_the_threshold_witness :
  let merged := pr_pipeline scenario_em scenario_rm PV_CAPACITY PR_THRESHOLD in
  F64.leb (F64.dec 1 100000) INVERTER_EFF_THRESHOLD = true /\
  Low_Efficiency_Count
    (analyze_inverter seq_sum merged (scenario_rm, "a.xlsx"%string)
       PV_CAPACITY (F64.dec 1 100000))
  <= Low_Efficiency_Count
       (analyze_inverter seq_sum merged (scenario_rm, "a.xlsx"%string)
          PV_CAPACITY INVERTER_EFF_THRESHOLD).
Proof.
  intros merged.
  assert (H : F64.leb (F64.dec 1 100000) INVERTER_EFF_THRESHOLD = true)
    by (vm_compute; reflexivity).
  split; [exact H|].
  exact (proj1 (@low_count_grows_with_the_threshold seq_sum merged
                  (scenario_rm, "a.xlsx"%string) PV_CAPACITY
                  (F64.dec 1 100000) INVERTER_EFF_THRESHOLD H)).
Defined.

(** X16: inverter readings at timestamps that are not in the PR frame do
    not matter: the summary of an inverter is the same without them. *)
Theorem unmatched_inverter_readings_do_not_matter
    (np_sum : list float -> float) (merged_df : list PRRow)
    (inv_data : list TimeSeriesRow) (name : string)
    (pv_capacity eff_threshold : float) :
  analyze_inverter np_sum merged_df
    (filter (fun i => existsb (fun k => key_eqb k (ts i))
                        (map Start_Time merged_df)) inv_data, name)
    pv_capacity eff_threshold
  = analyze_inverter np_sum merged_df (inv_data, name)
      pv_capacity eff_threshold.
Proof.
  unfold analyze_inverter, inverter_rows. simpl.
  now rewrite merge_matched_right.
Qed.

Lemma binary_round_aux_sign (mx ex : Z) (lx : location) :
  let r := binary_round_aux F64.prec F64.emax false mx ex lx in
  F64.is_nan r = true \/ F64.geb r F64.zero = true.
Proof.
  unfold binary_round_aux.
  destruct (shr_fexp F64.prec F64.emax mx ex lx) as [mrs' e'].
  destruct (shr_fexp F64.prec F64.emax
              (round_nearest_even (shr_m mrs') (loc_of_shr_record mrs'))
              e' loc_Exact) as [mrs'' e''].
  destruct (shr_m mrs'') as [| m | m].
  - right. reflexivity.
  - destruct (e'' <=? F64.emax - F64.prec)%Z; right; reflexivity.
  - left. reflexivity.
Qed.

Lemma div_sign (x y : float) :
  F64.geb x F64.zero = true -> F64.gtb y F64.zero = true ->
  F64.is_nan (F64.div x y) = true \/ F64.geb (F64.div x y) F64.zero = true.
Proof.
  intros Hx Hy.
  destruct y as [sy | sy | | sy my ey]; try discriminate Hy;
    destruct sy; try discriminate Hy;
    destruct x as [sx | sx | | sx mx ex]; try discriminate Hx;
    try (destruct sx; try discriminate Hx);
    try (right; reflexivity); try (left; reflexivity).
  unfold F64.div, SFdiv.
  destruct (SFdiv_core_binary F64.prec F64.emax (Z.pos mx) ex (Z.pos my) ey)
    as [[mz ez] lz].
  apply binary_round_aux_sign.
Qed.

(** X17: with the readings of a loaded inverter file, no inverter
    efficiency is negative: the efficiency of every joined row is a number
    [>= 0], or NaN when infinite energy meets infinite simulated energy. *)
Theorem loaded_inverter_efficiency_is_not_negative
    (str_to_float : string -> option float) (file : Workbook)
    (inv_data : list TimeSeriesRow) (merged_df : list PRRow)
    (pv_capacity : float) (r : InverterRow) :
  load_inverter_data str_to_float file = inr inv_data ->
  In r (inverter_rows merged_df inv_data pv_capacity) ->
  F64.ltb (Inverter_Efficiency r) F64.zero = false.
Proof.
  intros Hload Hr.
  apply load_columns_provenance in Hload as (sheet & _ & Hprov).
  unfold inverter_rows in Hr.
  apply in_map_iff in Hr as (x & <- & Hx).
  apply filter_In in Hx as [Hx Hpos].
  apply in_merge in Hx as (m & i & _ & Hi & _ & ->). simpl in *.
  apply Hprov in Hi as (_ & _ & Hge).
  destruct (div_sign _ _ Hge Hpos) as [Hn | Hg].
  - destruct (F64.div (value i) (simulated_energy (Irradiance m) pv_capacity));
      try discriminate Hn. apply ltb_nan_l.
  - now apply geb_ltb_false.
Qed.

Lemma loaded_inverter_efficiency_is_not_negative_witness :
  Forall (fun r => F64.ltb (Inverter_Efficiency r) F64.zero = false)
    (inverter_rows
       (pr_pipeline scenario_em scenario_rm PV_CAPACITY PR_THRESHOLD)
       scenario_rm PV_CAPACITY).
Proof.
  apply Forall_forall. intros r.
  apply (@loaded_inverter_efficiency_is_not_negative no_numeric_text
           sample_file scenario_rm
           (pr_pipeline scenario_em scenario_rm PV_CAPACITY PR_THRESHOLD)
           PV_CAPACITY r).
  vm_compute. reflexivity.
Defined.

Lemma pair_count_le_min (ks1 ks2 : list Cell) :
  unique_keys ks1 = true -> unique_keys ks2 = true ->
  pair_count ks1 ks2 <= Nat.min (List.length ks1) (List.length ks2).
Proof.
  intros H1 H2. apply Nat.min_glb.
  - rewrite (unique_pair_count ks1 ks2 H2). apply length_filter_le.
  - rewrite pair_count_sym, (unique_pair_count ks2 ks1 H1).
    apply length_filter_le.
Qed.

(** X18: when no timestamp is repeated within the PR frame nor within the
    readings of an inverter, its low-efficiency count is at most the number
    of rows of the frame and at most the number of its readings. *)
Theorem low_count_is_bounded_by_the_inputs
    (np_sum : list float -> float) (merged_df : list PRRow)
    (inv : list TimeSeriesRow * string) (pv_capacity eff_threshold : float) :
  unique_keys (map Start_Time merged_df) = true ->
  unique_keys (keys (fst inv)) = true ->
  Low_Efficiency_Count
    (analyze_inverter np_sum merged_df inv pv_capacity eff_threshold)
  <= Nat.min (List.length merged_df) (List.length (fst inv)).
Proof.
  intros H1 H2. unfold analyze_inverter, inverter_rows. simpl.
  etransitivity; [apply length_filter_le|].
  rewrite length_map.
  etransitivity; [apply length_filter_le|].
  rewrite length_merge.
  etransitivity; [apply (pair_count_le_min _ _ H1 H2)|].
  unfold keys. now rewrite !length_map.
Qed.

Lemma low_count_is_bounded_by_the_inputs_witness :
  Low_Efficiency_Count
    (analyze_inverter seq_sum
       (pr_pipeline scenario_em scenario_rm PV_CAPACITY PR_THRESHOLD)
       (scenario_rm, "a.xlsx"%string) PV_CAPACITY INVERTER_EFF_THRESHOLD)
  <= Nat.min
       (List.length
          (pr_pipeline scenario_em scenario_rm PV_CAPACITY PR_THRESHOLD))
       (List.length (fst (scenario_rm, "a.xlsx"%string))).
Proof.
  apply low_count_is_bounded_by_the_inputs; reflexivity.
Defined.
